(** * Expense tracker: time buckets, stores and the insights engine

    A shallow embedding of [src/app.js]: the [Utility] date helpers, the
    read filters of [ExpenseManager], [BudgetManager] and the
    [InsightsEngine], followed by the properties established about them.

    Conventions of the embedding.
    - A JavaScript [Date] is its time value: milliseconds since the epoch
      in UTC, or NaN ("Invalid Date"), hence [option Z].
    - The host time zone is a fixed offset [tz] (LocalTZA, in milliseconds,
      east of Greenwich positive); daylight saving changes are not modelled.
    - Amounts are exact rationals ([Q]); binary floating-point rounding of
      JavaScript numbers is not modelled.
    - A thrown exception is the [Throw] case of [result]. *)

From stdpp Require Import gmap strings.
From Stdlib Require Import ZArith QArith Qround Qabs Lia Lqa String Ascii List DecimalString.
Import ListNotations.

Open Scope string_scope.
Open Scope Z_scope.

(** ** JavaScript values *)

Module JS.

Inductive Error : Type :=
| RangeError (msg : string).

Inductive result (A : Type) : Type :=
| Ok (a : A)
| Throw (e : Error).

Arguments Ok {A} a.
Arguments Throw {A} e.

Definition bind {A B : Type} (r : result A) (k : A -> result B) : result B :=
  match r with
  | Ok a => k a
  | Throw e => Throw e
  end.

(** A JavaScript number that is an integer or NaN. *)
Definition num : Type := option Z.

Definition NaN : num := None.

Definition num_add (a b : num) : num :=
  match a, b with
  | Some x, Some y => Some (x + y)
  | _, _ => None
  end.

Definition num_sub (a b : num) : num :=
  match a, b with
  | Some x, Some y => Some (x - y)
  | _, _ => None
  end.

(** [a === k] for a number [a] and an integer literal [k]. *)
Definition num_eqb (a : num) (k : Z) : bool :=
  match a with
  | Some x => x =? k
  | None => false
  end.

(** [a >= b] and [a <= b] on numbers: false as soon as one side is NaN. *)
Definition num_geb (a b : num) : bool :=
  match a, b with
  | Some x, Some y => y <=? x
  | _, _ => false
  end.

Definition num_leb (a b : num) : bool :=
  match a, b with
  | Some x, Some y => x <=? y
  | _, _ => false
  end.

Definition digit_value (c : ascii) : option Z :=
  let n := Z.of_nat (nat_of_ascii c) in
  if (48 <=? n) && (n <=? 57) then Some (n - 48) else None.

Definition digit_char (v : Z) : ascii :=
  ascii_of_nat (Z.to_nat (48 + v)).

(** The value of a string of decimal digits, most significant first,
    continuing from the accumulator [acc]; [None] on any other character. *)
Fixpoint digits_value (acc : Z) (s : string) : option Z :=
  match s with
  | EmptyString => Some acc
  | String c r =>
      match digit_value c with
      | Some v => digits_value (10 * acc + v) r
      | None => None
      end
  end.

(** [Number(s)] on a string. The empty string is [0]; a string of decimal
    digits is its value (exactly: the rounding of integers past 2^53 is
    not modelled). Every other spelling ECMAScript accepts (a sign, a
    fraction, an exponent, surrounding white space, a radix prefix,
    [Infinity]) is outside the fragment modelled and is mapped to NaN,
    like the strings ECMAScript itself rejects. *)
Definition Number (s : string) : num := digits_value 0 s.

(** [w] decimal digits of [v], most significant first. *)
Fixpoint digits_fixed (w : nat) (v : Z) : string :=
  match w with
  | O => EmptyString
  | S w' => digits_fixed w' (v / 10) ++ String (digit_char (v mod 10)) EmptyString
  end.

(** [String(n)], also the text a template literal inserts for [n]: the
    decimal digits of an integer (the exponent form of integers from
    10^21 on is not modelled). *)
Definition to_string (n : num) : string :=
  match n with
  | Some z => NilZero.string_of_int (Z.to_int z)
  | None => "NaN"
  end.

Fixpoint repeat_char (c : ascii) (n : nat) : string :=
  match n with
  | O => EmptyString
  | S n' => String c (repeat_char c n')
  end.

(** [s.padStart(n, c)] for a one-character filler. *)
Definition padStart (n : nat) (c : ascii) (s : string) : string :=
  repeat_char c (n - String.length s) ++ s.

(** [s.split(c)] for a one-character separator: the pieces between the
    occurrences of [c]; never the empty array. *)
Fixpoint split (c : ascii) (s : string) : list string :=
  match s with
  | EmptyString => [EmptyString]
  | String a r =>
      if Ascii.eqb a c then EmptyString :: split c r
      else match split c r with
           | h :: t => String a h :: t
           | [] => [String a EmptyString]
           end
  end.

(** [xs[i]] followed by [Number]-typed use: a missing element is
    [undefined], which arithmetic and [===] treat like NaN here. *)
Definition nth_num (xs : list num) (i : nat) : num :=
  match nth_error xs i with
  | Some n => n
  | None => NaN
  end.

(** White space among the code units below 256: tab, line feed, vertical
    tab, form feed, carriage return, space and no-break space. A string
    is the sequence of its code units, all below 256 in this model. *)
Definition is_space (c : ascii) : bool :=
  let n := nat_of_ascii c in
  ((9 <=? n) && (n <=? 13))%nat || (n =? 32)%nat || (n =? 160)%nat.

Fixpoint trimStart (s : string) : string :=
  match s with
  | EmptyString => EmptyString
  | String c r => if is_space c then trimStart r else s
  end.

Fixpoint trimEnd (s : string) : string :=
  match s with
  | EmptyString => EmptyString
  | String c r =>
      match trimEnd r with
      | EmptyString => if is_space c then EmptyString else String c EmptyString
      | r' => String c r'
      end
  end.

(** [s.trim()] *)
Definition trim (s : string) : string := trimEnd (trimStart s).

(** [xs.findIndex(f)]: the index of the first element that satisfies [f];
    [None] stands for -1. *)
Fixpoint findIndex {A : Type} (f : A -> bool) (xs : list A) : option nat :=
  match xs with
  | [] => None
  | x :: r => if f x then Some O else option_map S (findIndex f r)
  end.

(** The comparison [sort] makes of [x] and [y]: the callback's number,
    with NaN taken as 0; [true] when [x] has to come after [y]. *)
Definition sorts_after {A : Type} (cmp : A -> A -> num) (x y : A) : bool :=
  match cmp x y with
  | Some v => 0 <? v
  | None => false
  end.

Fixpoint sort_insert {A : Type} (cmp : A -> A -> num) (x : A) (l : list A)
  : list A :=
  match l with
  | [] => [x]
  | y :: r => if sorts_after cmp y x then x :: y :: r else y :: sort_insert cmp x r
  end.

(** [xs.sort(cmp)] on a fresh array: the stable sort ECMAScript requires,
    as an insertion sort. For a callback that is a consistent ordering the
    result of a stable sort does not depend on the algorithm. *)
Definition sort {A : Type} (cmp : A -> A -> num) (xs : list A) : list A :=
  fold_left (fun acc x => sort_insert cmp x acc) xs [].

End JS.

Notation "'try!' x ':=' r 'in' k" := (JS.bind r (fun x => k))
  (at level 10, x name, r at level 100, k at level 200).

(** ** The proleptic Gregorian calendar of ECMAScript time values *)

Module Calendar.

Definition msPerDay : Z := 86400000.

Definition Day (t : Z) : Z := t / msPerDay.

Definition TimeWithinDay (t : Z) : Z := t mod msPerDay.

(** 0 is Sunday; day 0 of the epoch, 1970-01-01, was a Thursday. *)
Definition WeekDay (t : Z) : Z := (Day t + 4) mod 7.

Definition MakeTime (h m s ms : Z) : Z :=
  h * 3600000 + m * 60000 + s * 1000 + ms.

Definition MakeDate (day time : Z) : Z := day * msPerDay + time.

Definition InLeapYear (y : Z) : bool :=
  ((y mod 4 =? 0) && negb (y mod 100 =? 0)) || (y mod 400 =? 0).

(** Months are numbered 1 to 12, as they are written in a date key. *)
Definition DaysInMonth (y m : Z) : Z :=
  if m =? 2 then (if InLeapYear y then 29 else 28)
  else if (m =? 4) || (m =? 6) || (m =? 9) || (m =? 11) then 30
  else 31.

(** The day number (days since the epoch) of the [d]-th day counted from
    the first of month [m] of year [y]; [d] may lie outside the month, as
    in ECMAScript's MakeDay. *)
Definition days_from_civil (y m d : Z) : Z :=
  let y' := if m <=? 2 then y - 1 else y in
  let era := y' / 400 in
  let yoe := y' - era * 400 in
  let mp := if 2 <? m then m - 3 else m + 9 in
  let doy := (153 * mp + 2) / 5 + d - 1 in
  let doe := yoe * 365 + yoe / 4 - yoe / 100 + doy in
  era * 146097 + doe - 719468.

(** Year, month (1 to 12) and day of the month of a day number:
    YearFromTime, MonthFromTime + 1 and DateFromTime. *)
Definition civil_from_days (n : Z) : Z * Z * Z :=
  let z := n + 719468 in
  let era := z / 146097 in
  let doe := z - era * 146097 in
  let yoe := (doe - doe / 1460 + doe / 36524 - doe / 146096) / 365 in
  let doy := doe - (365 * yoe + yoe / 4 - yoe / 100) in
  let mp := (5 * doy + 2) / 153 in
  let d := doy - (153 * mp + 2) / 5 + 1 in
  let m := if mp <? 10 then mp + 3 else mp - 9 in
  let y := yoe + era * 400 in
  (if m <=? 2 then y + 1 else y, m, d).

Definition MakeDay (y m dt : Z) : Z := days_from_civil y m 1 + dt - 1.

End Calendar.

(** ** The [Date] object *)

Module JSDate.
Import Calendar.

(** The time value of a [Date]; [None] is NaN, an "Invalid Date". *)
Definition t : Type := option Z.

Definition TimeClip (v : Z) : t :=
  if Z.abs v <=? 8640000000000000 then Some v else None.

Definition LocalTime (tz v : Z) : Z := v + tz.

Definition UTC (tz v : Z) : Z := v - tz.

(** The date-only form [YYYY-MM-DD] of the ECMAScript date-time string
    format, read as midnight UTC: the form of every date key the
    application stores or builds. A month outside 1..12 or a day that
    does not exist in the month is an illegal element value. *)
Definition parse (s : string) : t :=
  match list_ascii_of_string s with
  | [y1; y2; y3; y4; sep1; m1; m2; sep2; d1; d2] =>
      if Ascii.eqb sep1 "-" && Ascii.eqb sep2 "-" then
        match JS.digits_value 0 (string_of_list_ascii [y1; y2; y3; y4]),
              JS.digits_value 0 (string_of_list_ascii [m1; m2]),
              JS.digits_value 0 (string_of_list_ascii [d1; d2]) with
        | Some y, Some m, Some d =>
            if (1 <=? m) && (m <=? 12) && (1 <=? d) && (d <=? DaysInMonth y m)
            then Some (MakeDate (days_from_civil y m d) 0)
            else None
        | _, _, _ => None
        end
      else None
  | _ => None
  end.

(** [new Date(s)] for a string [s]. ECMAScript fixes the result for the
    date-time string format only and lets the host try heuristics of its
    own on anything else; the model takes every string outside the
    date-only form as unparseable, hence NaN. *)
Definition of_string (s : string) : t := parse s.

(** [new Date(d)] for a [Date] [d]: a copy of the time value. *)
Definition copy (d : t) : t := d.

Definition getDay (tz : Z) (d : t) : JS.num :=
  match d with
  | Some v => Some (WeekDay (LocalTime tz v))
  | None => JS.NaN
  end.

Definition getDate (tz : Z) (d : t) : JS.num :=
  match d with
  | Some v => Some (snd (civil_from_days (Day (LocalTime tz v))))
  | None => JS.NaN
  end.

(** [d.setDate(dt)]: the day of the month is replaced in local time, the
    time within the day is kept, and MakeDay carries a [dt] outside the
    month into the neighbouring months. *)
Definition setDate (tz : Z) (d : t) (dt : JS.num) : t :=
  match d, dt with
  | Some v, Some n =>
      let lt := LocalTime tz v in
      let '(y, m, _) := civil_from_days (Day lt) in
      TimeClip (UTC tz (MakeDate (MakeDay y m n) (TimeWithinDay lt)))
  | _, _ => None
  end.

(** [d.setHours(h, m, s, ms)]: the time within the local day is replaced. *)
Definition setHours (tz : Z) (d : t) (h m s ms : Z) : t :=
  match d with
  | Some v =>
      let lt := LocalTime tz v in
      TimeClip (UTC tz (MakeDate (Day lt) (MakeTime h m s ms)))
  | None => None
  end.

(** The year of an ISO string: four digits from 0 to 9999, otherwise a
    sign and six digits. *)
Definition iso_year (y : Z) : string :=
  if (0 <=? y) && (y <=? 9999) then JS.digits_fixed 4 y
  else (if y <? 0 then "-" else "+") ++ JS.digits_fixed 6 (Z.abs y).

Definition iso_date (n : Z) : string :=
  let '(y, m, d) := civil_from_days n in
  iso_year y ++ "-" ++ JS.digits_fixed 2 m ++ "-" ++ JS.digits_fixed 2 d.

(** [d.toISOString().split('T')[0]]: the text before the [T] of the ISO
    string, that is its UTC calendar date; [toISOString] throws a
    [RangeError] on an invalid date. *)
Definition toISOString_date (d : t) : JS.result string :=
  match d with
  | Some v => JS.Ok (iso_date (Day v))
  | None => JS.Throw (JS.RangeError "Invalid time value")
  end.

End JSDate.

(** ** [class Utility]: the time-bucket helpers *)

Module Utility.

Definition getStartOfWeek (tz : Z) (date : string) : JS.result string :=
  let d := JSDate.of_string date in
  let day := JSDate.getDay tz d in
  let diff :=
    JS.num_add (JS.num_sub (JSDate.getDate tz d) day)
               (Some (if JS.num_eqb day 0 then -6 else 1)) in
  let d := JSDate.setDate tz d diff in
  let d := JSDate.setHours tz d 0 0 0 0 in
  JSDate.toISOString_date d.

Definition getStartOfMonth (tz : Z) (date : string) : JS.result string :=
  let d := JSDate.of_string date in
  let d := JSDate.setDate tz d (Some 1) in
  try! s := JSDate.toISOString_date d in
  JS.Ok (String.substring 0 7 s).

Definition getPreviousMonth (dateKey : string) : string :=
  let parts := map JS.Number (JS.split "-" dateKey) in
  let year := JS.nth_num parts 0 in
  let month := JS.nth_num parts 1 in
  let prevMonth := if JS.num_eqb month 1 then Some 12 else JS.num_sub month (Some 1) in
  let prevYear := if JS.num_eqb month 1 then JS.num_sub year (Some 1) else year in
  JS.to_string prevYear ++ "-" ++ JS.padStart 2 "0" (JS.to_string prevMonth).

Definition getPreviousWeek (tz : Z) (dateKey : string) : JS.result string :=
  let d := JSDate.of_string dateKey in
  let d := JSDate.setDate tz d (JS.num_sub (JSDate.getDate tz d) (Some 7)) in
  JSDate.toISOString_date d.

End Utility.

(** ** Records of the stores *)

(** [const CATEGORIES]: the labels the expense form offers, the only
    values the [category] of a stored expense takes. *)
Inductive Category : Type :=
| Food | Transport | Housing | Entertainment | Bills | Shopping | Other.

Definition CATEGORIES : list Category :=
  [Food; Transport; Housing; Entertainment; Bills; Shopping; Other].

Definition Category_eqb (a b : Category) : bool :=
  match a, b with
  | Food, Food | Transport, Transport | Housing, Housing
  | Entertainment, Entertainment | Bills, Bills | Shopping, Shopping
  | Other, Other => true
  | _, _ => false
  end.

(** Expense object format:
    [{ id: string, amount: number, category: string, description: string,
       date: string (YYYY-MM-DD) }]. *)
Record Expense : Type := mkExpense {
  id : string;
  amount : Q;
  category : Category;
  description : string;
  date : string
}.

(** Comparisons and [||] on JavaScript numbers that are rationals;
    [None] stands for [undefined]. *)
Module JSQ.

Definition gtb (a b : Q) : bool := negb (Qle_bool a b).

Definition geb (a b : Q) : bool := Qle_bool b a.

Definition ltb (a b : Q) : bool := negb (Qle_bool b a).

(** [a === 0] *)
Definition is_zero (a : Q) : bool := Qeq_bool a 0.

(** [a > b] where either side may be [undefined]. *)
Definition gtb_undef (a b : option Q) : bool :=
  match a, b with
  | Some x, Some y => gtb x y
  | _, _ => false
  end.

(** [v || 0]: [undefined] and [0] are falsy. *)
Definition or_zero (v : option Q) : Q :=
  match v with
  | Some x => if is_zero x then 0%Q else x
  | None => 0%Q
  end.

(** The integer that [x.toFixed(0)] prints: the nearest one, the larger
    in magnitude when two are equally near. *)
Definition toFixed0 (x : Q) : Z :=
  if ltb x 0 then - Qfloor (Qabs x + (1 # 2))%Q else Qfloor (x + (1 # 2))%Q.

Definition leb (a b : Q) : bool := Qle_bool a b.

(** [Math.min(a, b)] *)
Definition min (a b : Q) : Q := if Qle_bool a b then a else b.

End JSQ.

(** ** [class ExpenseManager]: the read filters *)

Module ExpenseManager.

Definition getExpensesByMonth (expenses : list Expense) (monthKey : string)
  : list Expense :=
  filter (fun e => String.prefix monthKey (date e)) expenses.

Definition getExpensesByWeek (tz : Z) (expenses : list Expense)
  (dateKey : string) : list Expense :=
  let startOfWeek := JSDate.of_string dateKey in
  let endOfWeek := JSDate.copy startOfWeek in
  let endOfWeek :=
    JSDate.setDate tz endOfWeek
      (JS.num_add (JSDate.getDate tz endOfWeek) (Some 6)) in
  let endOfWeek := JSDate.setHours tz endOfWeek 23 59 59 999 in
  filter (fun e =>
            let expenseDate := JSDate.of_string (date e) in
            JS.num_geb expenseDate startOfWeek
            && JS.num_leb expenseDate endOfWeek)
         expenses.

(** [addExpense]: [uuid] is the identifier [crypto.randomUUID()] gives and
    [amount] the number [parseFloat] reads. Returns the new record and the
    expenses after the call. *)
Definition addExpense (expenses : list Expense) (uuid : string) (amount : Q)
  (category : Category) (description date : string)
  : Expense * list Expense :=
  let newExpense :=
    mkExpense uuid amount category (JS.trim description) date in
  (newExpense, (expenses ++ [newExpense])%list).

(** [updateExpense]: the record at the first index whose [id] is [target]
    is replaced; [None] is the [null] returned when there is none. *)
Definition updateExpense (expenses : list Expense) (target : string)
  (amount : Q) (category : Category) (description date : string)
  : option Expense * list Expense :=
  match JS.findIndex (fun e => String.eqb (id e) target) expenses with
  | Some index =>
      let updated :=
        mkExpense target amount category (JS.trim description) date in
      let expenses := <[index := updated]> expenses in
      (expenses !! index, expenses)
  | None => (None, expenses)
  end.

Definition deleteExpense (expenses : list Expense) (target : string)
  : bool * list Expense :=
  let initialLength := List.length expenses in
  let expenses := filter (fun e => negb (String.eqb (id e) target)) expenses in
  ((List.length expenses <? initialLength)%nat, expenses).

Definition getDailyExpenses (expenses : list Expense) (day : string)
  : list Expense :=
  JS.sort
    (fun a b => JS.num_sub (JSDate.of_string (date b)) (JSDate.of_string (date a)))
    (filter (fun e => String.eqb (date e) day) expenses).

End ExpenseManager.

(** ** [class BudgetManager] *)

Module BudgetManager.

(** [this.budgets]: [{ monthly: { [key]: amount }, weekly: { ... } }]. *)
Abbreviation Budgets := (gmap string (gmap string Q)).

(** Returns the boolean result and the budgets after the call. The
    caller passes a number, on which [parseFloat] is the identity. *)
Definition setBudget (budgets : Budgets) (type key : string) (amount : Q)
  : bool * Budgets :=
  if negb (String.eqb type "monthly") && negb (String.eqb type "weekly")
  then (false, budgets)
  else
    let budgets :=
      match budgets !! type with
      | Some _ => budgets
      | None => <[type := ∅]> budgets
      end in
    let inner := default ∅ (budgets !! type) in
    (true, <[type := <[key := amount]> inner]> budgets).

(** [this.budgets[type]?.[key]]: the amount stored for the pair, or
    [undefined]. *)
Definition entry (budgets : Budgets) (type key : string) : option Q :=
  match budgets !! type with
  | Some inner => inner !! key
  | None => None
  end.

Definition getBudget (budgets : Budgets) (type key : string) : Q :=
  JSQ.or_zero (entry budgets type key).

Definition getCurrentMonthlyBudget (tz : Z) (budgets : Budgets)
  (today : string) : JS.result Q :=
  try! currentMonth := Utility.getStartOfMonth tz today in
  JS.Ok (getBudget budgets "monthly" currentMonth).

End BudgetManager.

(** ** [class InsightsEngine] *)

(** The messages of [generateInsights], one constructor per template
    literal, carrying the values the template interpolates. *)
Inductive Insight : Type :=
| HigherThanLastWeek (percent : Z)
    (* Warning: Your spending is N% higher than last week. Be mindful! *)
| LowerThanLastWeek (percent : Z)
    (* Great job! Your spending is N% lower than last week. Keep saving! *)
| StartComparing
    (* Start comparing! You have expenses this week, but none recorded last week. *)
| Excellent (percentUsed : Z) (remaining : Q)
    (* Excellent! You've only used N% of your monthly budget. Remaining: R. *)
| CriticalOverBudget (over : Q)
    (* Critical Warning: You are over budget by R this month. Immediate action needed! *)
| CautionNearLimit (percentUsed : Z)
    (* Caution: You are close to your budget limit (N% used). ... *)
| SetBudgetTip
    (* Tip: Set a monthly budget in the 'Budget & Goals' section ... *)
| Observation (topCategory : Category) (topAmount : option Q)
    (* Observation: Your highest expense category this month is C, costing R. *)
| Suggestion (topCategory : Category).
    (* Suggestion: Try to find free or cheaper alternatives for C this week ... *)

Module InsightsEngine.

(** A JavaScript object keyed by category: its own properties in
    insertion order, which is the order [Object.keys] lists them in. *)
Definition CategoryTotals : Type := list (Category * Q).

Fixpoint obj_get (o : CategoryTotals) (k : Category) : option Q :=
  match o with
  | [] => None
  | (k', v) :: r => if Category_eqb k' k then Some v else obj_get r k
  end.

(** [o[k] = v]: an existing property keeps its place, a new one is added
    last. *)
Fixpoint obj_set (o : CategoryTotals) (k : Category) (v : Q) : CategoryTotals :=
  match o with
  | [] => [(k, v)]
  | (k', v') :: r =>
      if Category_eqb k' k then (k', v) :: r else (k', v') :: obj_set r k v
  end.

Definition Object_keys (o : CategoryTotals) : list Category := map fst o.

Record Totals : Type := mkTotals {
  total : Q;
  categoryTotals : CategoryTotals
}.

(** The callback of the second [reduce] of [calculateTotals]:
    [totals[e.category] = (totals[e.category] || 0) + e.amount]. *)
Definition add_to_category (totals : CategoryTotals) (e : Expense)
  : CategoryTotals :=
  obj_set totals (category e)
    (JSQ.or_zero (obj_get totals (category e)) + amount e)%Q.

Definition calculateTotals (expenses : list Expense) : Totals :=
  let total := fold_left (fun sum e => (sum + amount e)%Q) expenses 0%Q in
  let categoryTotals := fold_left add_to_category expenses [] in
  {| total := total; categoryTotals := categoryTotals |}.

Record WeeklySummary : Type := mkWeeklySummary {
  currentWeekKey : string;
  lastWeekKey : string;
  week_current : Totals;
  week_last : Totals
}.

Record MonthlySummary : Type := mkMonthlySummary {
  currentMonthKey : string;
  prevMonthKey : string;
  month_current : Totals;
  month_prev : Totals;
  budget : Q
}.

(** [today] is [new Date().toISOString().split('T')[0]]. *)
Definition getWeeklySummary (tz : Z) (expenses : list Expense)
  (today : string) : JS.result WeeklySummary :=
  try! currentWeekKey := Utility.getStartOfWeek tz today in
  try! lastWeekKey := Utility.getPreviousWeek tz currentWeekKey in
  let currentWeekExpenses :=
    ExpenseManager.getExpensesByWeek tz expenses currentWeekKey in
  let lastWeekExpenses :=
    ExpenseManager.getExpensesByWeek tz expenses lastWeekKey in
  let current := calculateTotals currentWeekExpenses in
  let last := calculateTotals lastWeekExpenses in
  JS.Ok {| currentWeekKey := currentWeekKey; lastWeekKey := lastWeekKey;
           week_current := current; week_last := last |}.

Definition getMonthlySummary (tz : Z) (expenses : list Expense)
  (budgets : BudgetManager.Budgets) (today : string)
  : JS.result MonthlySummary :=
  try! currentMonthKey := Utility.getStartOfMonth tz today in
  let prevMonthKey := Utility.getPreviousMonth currentMonthKey in
  let currentMonthExpenses :=
    ExpenseManager.getExpensesByMonth expenses currentMonthKey in
  let prevMonthExpenses :=
    ExpenseManager.getExpensesByMonth expenses prevMonthKey in
  let current := calculateTotals currentMonthExpenses in
  let prev := calculateTotals prevMonthExpenses in
  try! budget := BudgetManager.getCurrentMonthlyBudget tz budgets today in
  JS.Ok {| currentMonthKey := currentMonthKey; prevMonthKey := prevMonthKey;
           month_current := current; month_prev := prev; budget := budget |}.

(** Rule 1 of [generateInsights]: the weekly comparison. *)
Definition weeklyInsight (weekly : WeeklySummary) : list Insight :=
  let cur := total (week_current weekly) in
  let last := total (week_last weekly) in
  if JSQ.gtb cur 0 && JSQ.gtb last 0 then
    let diff := (cur - last)%Q in
    let percentDiff := (Qabs diff / last * 100)%Q in
    if JSQ.gtb diff 0 then [HigherThanLastWeek (JSQ.toFixed0 percentDiff)]
    else if JSQ.ltb diff 0 then [LowerThanLastWeek (JSQ.toFixed0 percentDiff)]
    else []
  else if JSQ.gtb cur 0 && JSQ.is_zero last then [StartComparing]
  else [].

(** Rule 2: the budget status. *)
Definition budgetInsight (monthly : MonthlySummary) : list Insight :=
  if JSQ.gtb (budget monthly) 0 then
    let remaining := (budget monthly - total (month_current monthly))%Q in
    let percentUsed := (total (month_current monthly) / budget monthly * 100)%Q in
    if JSQ.geb remaining 0 && JSQ.ltb percentUsed 80 then
      [Excellent (JSQ.toFixed0 percentUsed) remaining]
    else if JSQ.ltb remaining 0 then [CriticalOverBudget (Qabs remaining)]
    else if JSQ.geb percentUsed 80 then [CautionNearLimit (JSQ.toFixed0 percentUsed)]
    else []
  else [SetBudgetTip].

(** [keys.reduce((a, b) => ct[a] > ct[b] ? a : b)], without an initial
    value: the first key starts the accumulator. On the empty array
    [reduce] throws; the caller tests the length first. *)
Definition reduce_top (ct : CategoryTotals) (keys : list Category)
  : option Category :=
  match keys with
  | [] => None
  | k :: ks =>
      Some (fold_left
              (fun a b => if JSQ.gtb_undef (obj_get ct a) (obj_get ct b)
                          then a else b)
              ks k)
  end.

(** Rule 3: the top category of the current month and its suggestion. *)
Definition topCategoryInsight (monthly : MonthlySummary) : list Insight :=
  let ct := categoryTotals (month_current monthly) in
  if (0 <? Z.of_nat (List.length (Object_keys ct))) then
    match reduce_top ct (Object_keys ct) with
    | Some topCategory =>
        let topAmount := obj_get ct topCategory in
        (Observation topCategory topAmount
         :: (if Category_eqb topCategory Entertainment
                || Category_eqb topCategory Shopping
             then [Suggestion topCategory] else []))%list
    | None => []
    end
  else [].

Definition insightsOf (weekly : WeeklySummary) (monthly : MonthlySummary)
  : list Insight :=
  (weeklyInsight weekly ++ budgetInsight monthly ++ topCategoryInsight monthly)%list.

Definition generateInsights (tz : Z) (expenses : list Expense)
  (budgets : BudgetManager.Budgets) (today : string)
  : JS.result (list Insight) :=
  try! weekly := getWeeklySummary tz expenses today in
  try! monthly := getMonthlySummary tz expenses budgets today in
  JS.Ok (insightsOf weekly monthly).

End InsightsEngine.

(** ** [class UIManager]: the figures of the budget view and the goals review

    [renderBudgetView] and [renderGoalsReview] compute a few values and
    interpolate them into markup. The definitions below are those values
    under the names the source gives them; the markup around them, the
    currency format of [Intl] and the one-decimal text of [percentUsed] are
    not modelled. *)

Module UIManager.
Import InsightsEngine.

Definition calculateMonthlyTotal (expenses : list Expense) (monthKey : string) : Q :=
  fold_left (fun sum e => (sum + amount e)%Q)
    (ExpenseManager.getExpensesByMonth expenses monthKey) 0%Q.

Record BudgetView : Type := mkBudgetView {
  viewMonthKey : string;
  currentBudget : Q;
  monthlyTotal : Q;
  remaining : Q;
  percentUsed : Q;
  isOverBudget : bool;
  (* the class of the bar: bg-red-500, bg-orange-500 or bg-green-500 *)
  progressColor : string;
  (* the width of the bar in percent: Math.min(100, percentUsed).toFixed(0) *)
  progressWidth : Z;
  (* Status: OVER BUDGET or ON TRACK *)
  statusText : string
}.

Definition renderBudgetView (tz : Z) (expenses : list Expense)
  (budgets : BudgetManager.Budgets) (today : string) : JS.result BudgetView :=
  try! currentMonthKey := Utility.getStartOfMonth tz today in
  try! currentBudget := BudgetManager.getCurrentMonthlyBudget tz budgets today in
  let monthlyTotal := calculateMonthlyTotal expenses currentMonthKey in
  let remaining := (currentBudget - monthlyTotal)%Q in
  let percentUsed :=
    if JSQ.gtb currentBudget 0 then (monthlyTotal / currentBudget * 100)%Q else 0%Q in
  let isOverBudget := JSQ.ltb remaining 0 in
  let progressColor :=
    if isOverBudget then "bg-red-500"
    else if JSQ.gtb percentUsed 80 then "bg-orange-500" else "bg-green-500" in
  JS.Ok {| viewMonthKey := currentMonthKey;
           currentBudget := currentBudget;
           monthlyTotal := monthlyTotal;
           remaining := remaining;
           percentUsed := percentUsed;
           isOverBudget := isOverBudget;
           progressColor := progressColor;
           progressWidth := JSQ.toFixed0 (JSQ.min 100 percentUsed);
           statusText := if isOverBudget then "OVER BUDGET" else "ON TRACK" |}.

(** The one entry of [goalsHtml]: the card with its status and colour, or
    the prompt to set a budget. *)
Inductive Goal : Type :=
| BudgetGoal (status color : string) (budget total : Q)
| SetBudgetPrompt.

Definition renderGoalsReview (monthlySummary : MonthlySummary) : list Goal :=
  let current := month_current monthlySummary in
  let budget := budget monthlySummary in
  if JSQ.gtb budget 0 then
    let status := if JSQ.leb (total current) budget then "Achieved" else "Missed" in
    let color := if JSQ.leb (total current) budget then "bg-green-500" else "bg-red-500" in
    [BudgetGoal status color budget (total current)]
  else [SetBudgetPrompt].

End UIManager.

(** ** Vocabulary of the statements *)

(** The sum of the [amount] field over a list of records. *)
Fixpoint sum_amounts (rs : list Expense) : Q :=
  match rs with
  | [] => 0%Q
  | e :: rs' => (amount e + sum_amounts rs')%Q
  end.

(** The sum of the values of a category object. *)
Fixpoint sum_values (o : InsightsEngine.CategoryTotals) : Q :=
  match o with
  | [] => 0%Q
  | (_, v) :: o' => (v + sum_values o')%Q
  end.

(** The day numbers of 0000-01-01 and 9999-12-31: the first and the last
    day a date key of the form YYYY-MM-DD can name. *)
Definition first_day : Z := -719528.

Definition last_day : Z := 2932896.

(** [key] is the date key of day number [n]. *)
Definition date_key (n : Z) (key : string) : Prop :=
  JSDate.of_string key = Some (Calendar.MakeDate n 0).

(** The key [YYYY-MM] of month [m] of year [y]. *)
Definition month_key (y m : Z) : string :=
  JS.digits_fixed 4 y ++ "-" ++ JS.digits_fixed 2 m.

(** [P] holds of the [n] integers from [i] on. *)
Fixpoint forall_range (n : nat) (i : Z) (P : Z -> bool) : bool :=
  match n with
  | O => true
  | S k => P i && forall_range k (i + 1) P
  end.

(** The host time zones considered: less than a day away from UTC. *)
Definition tz_range (tz : Z) : Prop :=
  - Calendar.msPerDay < tz < Calendar.msPerDay.

(** The day number of the Monday on or before day [n]. *)
Definition monday_on_or_before (n : Z) : Z := n - (n + 3) mod 7.

(** The day number that [getStartOfWeek] prints for day [n] when the host
    is at offset [tz]. *)
Definition week_start (tz n : Z) : Z :=
  monday_on_or_before (if tz <? 0 then n - 1 else n)
  - (if 0 <? tz then 1 else 0).

(** The rule a message of [generateInsights] comes from. *)
Definition is_weekly (i : Insight) : bool :=
  match i with
  | HigherThanLastWeek _ | LowerThanLastWeek _ | StartComparing => true
  | _ => false
  end.

Definition is_budget (i : Insight) : bool :=
  match i with
  | Excellent _ _ | CriticalOverBudget _ | CautionNearLimit _ | SetBudgetTip => true
  | _ => false
  end.

Definition is_observation (i : Insight) : bool :=
  match i with
  | Observation _ _ => true
  | _ => false
  end.

Definition is_suggestion (i : Insight) : bool :=
  match i with
  | Suggestion _ => true
  | _ => false
  end.

(** The tie-break in the words of the specification: of the categories
    with the maximum amount, the first in iteration order. *)
Fixpoint first_max (ct : InsightsEngine.CategoryTotals) : option (Category * Q) :=
  match ct with
  | [] => None
  | (k, v) :: r =>
      match first_max r with
      | Some (k', v') => if Qle_bool v' v then Some (k, v) else Some (k', v')
      | None => Some (k, v)
      end
  end.

(** A string that begins, or ends, with white space. *)
Definition starts_with_space (s : string) : bool :=
  match s with
  | EmptyString => false
  | String c _ => JS.is_space c
  end.

Fixpoint ends_with_space (s : string) : bool :=
  match s with
  | EmptyString => false
  | String c EmptyString => JS.is_space c
  | String _ r => ends_with_space r
  end.

(** The invariant of the expense store: identifiers are unique and
    amounts are positive. *)
Definition valid_store (expenses : list Expense) : Prop :=
  NoDup (map id expenses) /\ Forall (fun e => (0 < amount e)%Q) expenses.

(** ** Sample stores *)

(** The demo data of [window.onload], dated [today]. *)
Definition demo_expenses (today : string) : list Expense :=
  [ mkExpense "d1" (15050 # 100) Food "Lunch at cafe" today;
    mkExpense "d2" 40 Transport "Bus fare" today;
    mkExpense "d3" (65099 # 100) Shopping "New shirt" today;
    mkExpense "d4" 500 Entertainment "Movie tickets" today ].

Definition demo_budgets (monthKey : string) : BudgetManager.Budgets :=
  {[ "monthly" := {[ monthKey := 15000%Q ]} ]}.

(** A store on 2025-01-08 (day 20096): the demo data of the day and two
    expenses of the week before; the host is at UTC+05:30. *)
Definition sample_expenses : list Expense :=
  (demo_expenses "2025-01-08"
   ++ [ mkExpense "p1" 1000 Food "Groceries" "2025-01-01";
        mkExpense "p2" 349 Transport "Fuel" "2024-12-31" ])%list.

Definition sample_budgets : BudgetManager.Budgets := demo_budgets "2025-01".

Definition IST : Z := 19800000.

(** Two categories with the same total. *)
Definition tie_expenses : list Expense :=
  [ mkExpense "t1" 100 Food "Groceries" "2025-01-08";
    mkExpense "t2" 100 Transport "Taxi" "2025-01-08" ].

(** * Properties *)

(** ** Aggregation: [calculateTotals] *)

Section Totals.
Import InsightsEngine.

Lemma Category_eqb_eq (a b : Category) : Category_eqb a b = true <-> a = b.
Proof. destruct a, b; simpl; split; intro H; try reflexivity; discriminate H. Qed.

Lemma Category_eqb_neq (a b : Category) : Category_eqb a b = false <-> a <> b.
Proof.
  rewrite <- Category_eqb_eq. destruct (Category_eqb a b); split; intro H;
    try reflexivity; try discriminate; try (intro; discriminate).
  now elim H.
Qed.

Lemma or_zero_Some (v : Q) : (JSQ.or_zero (Some v) == v)%Q.
Proof.
  unfold JSQ.or_zero, JSQ.is_zero. destruct (Qeq_bool v 0) eqn:E.
  - apply Qeq_bool_iff in E. now symmetry.
  - reflexivity.
Qed.

Lemma sum_values_add (o : CategoryTotals) (e : Expense) :
  (sum_values (add_to_category o e) == sum_values o + amount e)%Q.
Proof.
  unfold add_to_category. generalize (category e) as k, (amount e) as a.
  intros k a. induction o as [|[k' v'] r IH]; cbn [obj_get obj_set].
  - cbn [sum_values JSQ.or_zero]. ring.
  - destruct (Category_eqb k' k) eqn:E.
    + pose proof (or_zero_Some v') as Hz.
      cbn [sum_values] in *. lra.
    + cbn [sum_values] in *. lra.
Qed.

Lemma fold_total (rs : list Expense) (acc : Q) :
  (fold_left (fun sum e => sum + amount e) rs acc == acc + sum_amounts rs)%Q.
Proof.
  revert acc. induction rs as [|e rs IH]; intro acc;
    cbn [fold_left sum_amounts].
  - ring.
  - rewrite IH. ring.
Qed.

Lemma fold_categories_sum (rs : list Expense) (o : CategoryTotals) :
  (sum_values (fold_left add_to_category rs o) == sum_values o + sum_amounts rs)%Q.
Proof.
  revert o. induction rs as [|e rs IH]; intro o; cbn [fold_left].
  - cbn [sum_amounts]. ring.
  - rewrite IH, sum_values_add. cbn [sum_amounts]. ring.
Qed.

Lemma keys_obj_set (o : CategoryTotals) (k : Category) (v : Q) (c : Category) :
  In c (Object_keys (obj_set o k v)) <-> In c (Object_keys o) \/ c = k.
Proof.
  induction o as [|[k' v'] r IH]; simpl.
  - intuition.
  - destruct (Category_eqb k' k) eqn:E; simpl.
    + apply Category_eqb_eq in E. subst k'. intuition.
    + rewrite IH. intuition.
Qed.

Lemma fold_categories_keys (rs : list Expense) (o : CategoryTotals) (c : Category) :
  In c (Object_keys (fold_left add_to_category rs o)) <->
  In c (Object_keys o) \/ exists e, In e rs /\ category e = c.
Proof.
  revert o. induction rs as [|e rs IH]; intro o; cbn [fold_left In].
  - split; [now left | intros [H | [e [[] _]]]; exact H].
  - rewrite IH. unfold add_to_category. rewrite keys_obj_set. split.
    + intros [[H | H] | [e' [H1 H2]]]; [now left | right | right].
      * exists e. split; [now left | now symmetry].
      * exists e'. split; [now right | exact H2].
    + intros [H | [e' [[H1 | H1] H2]]].
      * left. now left.
      * subst e'. left. right. now symmetry.
      * right. now exists e'.
Qed.

Lemma obj_get_None (o : CategoryTotals) (c : Category) :
  obj_get o c = None <-> ~ In c (Object_keys o).
Proof.
  induction o as [|[k v] r IH]; simpl.
  - intuition.
  - destruct (Category_eqb k c) eqn:E.
    + apply Category_eqb_eq in E. split; [discriminate | intro H; elim H; now left].
    + apply Category_eqb_neq in E. rewrite IH. intuition.
Qed.

Lemma obj_get_Some (o : CategoryTotals) (c : Category) :
  In c (Object_keys o) <-> exists v, obj_get o c = Some v.
Proof.
  induction o as [|[k v] r IH]; simpl.
  - split; [intros [] | intros [v H]; discriminate].
  - destruct (Category_eqb k c) eqn:E.
    + apply Category_eqb_eq in E. split; [intros _; now exists v | intros _; now left].
    + apply Category_eqb_neq in E. rewrite <- IH. intuition.
Qed.


End Totals.

(** ** The calendar *)

Section CalendarFacts.
Import Calendar.

Lemma year_of_era_formula (c q a doy : Z) :
  0 <= c <= 3 -> 0 <= q <= 24 -> 0 <= a <= 3 -> 0 <= doy <= 365 ->
  (doy = 365 -> a = 3 /\ (q = 24 -> c = 3)) ->
  let doe := 36524 * c + 1461 * q + 365 * a + doy in
  (doe - doe / 1460 + doe / 36524 - doe / 146096) / 365 = 100 * c + 4 * q + a.
Proof.
  intros Hc Hq Ha Hd Hl doe.
  assert (E1 : doe / 1460 = 25 * c + q + (24 * c + q + 365 * a + doy) / 1460).
  { subst doe.
    replace (36524 * c + 1461 * q + 365 * a + doy)
      with ((24 * c + q + 365 * a + doy) + (25 * c + q) * 1460) by lia.
    rewrite Z.div_add by lia. lia. }
  assert (E2 : doe / 36524 - doe / 146096 = c).
  { subst doe.
    replace (36524 * c + 1461 * q + 365 * a + doy)
      with ((1461 * q + 365 * a + doy) + c * 36524) by lia.
    rewrite Z.div_add by lia.
    replace ((1461 * q + 365 * a + doy + c * 36524) / 146096)
      with ((1461 * q + 365 * a + doy) / 36524).
    - lia.
    - Z.div_mod_to_equations. lia. }
  replace (doe - doe / 1460 + doe / 36524 - doe / 146096)
    with (doe - doe / 1460 + (doe / 36524 - doe / 146096)) by lia.
  rewrite E1, E2. subst doe. clear E1 E2.
  Z.div_mod_to_equations. lia.
Qed.

(** A day of a 400-year era splits into centuries, four-year cycles, years
    and a day of the year (years start on 1 March). *)
Lemma era_decompose (doe : Z) :
  0 <= doe < 146097 ->
  exists c q a doy,
    0 <= c <= 3 /\ 0 <= q <= 24 /\ 0 <= a <= 3 /\ 0 <= doy <= 365 /\
    (doy = 365 -> a = 3 /\ (q = 24 -> c = 3)) /\
    doe = 36524 * c + 1461 * q + 365 * a + doy.
Proof.
  intros H.
  pose (c := Z.min (doe / 36524) 3).
  assert (Hc : 0 <= c <= 3 /\ 0 <= doe - c * 36524 <= 36524 /\
               (c < 3 -> doe - c * 36524 < 36524))
    by (subst c; Z.div_mod_to_equations; lia).
  clearbody c. destruct Hc as [Hc [Hdoc Hdoc1]].
  remember (doe - c * 36524) as doc eqn:Edoc.
  pose (q := doc / 1461).
  assert (Hq : 0 <= q <= 24 /\ 0 <= doc - q * 1461 <= 1460 /\
               (q = 24 -> c < 3 -> doc - q * 1461 < 1460))
    by (subst q; Z.div_mod_to_equations; lia).
  clearbody q. destruct Hq as [Hq [Hdoq Hdoq1]].
  remember (doc - q * 1461) as doq eqn:Edoq.
  pose (a := Z.min (doq / 365) 3).
  assert (Ha : 0 <= a <= 3 /\ 0 <= doq - a * 365 <= 365 /\
               (a < 3 -> doq - a * 365 < 365) /\
               (doq < 1460 -> doq - a * 365 < 365))
    by (subst a; Z.div_mod_to_equations; lia).
  clearbody a. destruct Ha as [Ha [Hdoy [Hdoy1 Hdoy2]]].
  exists c, q, a, (doq - a * 365).
  repeat split; try lia.
Qed.

(** Evaluate the comparisons between numerals and the conditionals and
    boolean connectives they decide. *)
Ltac eval_closed_tests :=
  repeat match goal with
    | |- context [Z.eqb ?a ?b] =>
        let v := eval compute in (Z.eqb a b) in
        match v with true => idtac | false => idtac end;
        change (Z.eqb a b) with v
    | |- context [Z.ltb ?a ?b] =>
        let v := eval compute in (Z.ltb a b) in
        match v with true => idtac | false => idtac end;
        change (Z.ltb a b) with v
    | |- context [Z.leb ?a ?b] =>
        let v := eval compute in (Z.leb a b) in
        match v with true => idtac | false => idtac end;
        change (Z.leb a b) with v
    end;
  cbv beta iota; cbn [orb andb negb].

Lemma civil_from_days_spec (n : Z) :
  let '(y, m, d) := civil_from_days n in
  1 <= m <= 12 /\ 1 <= d <= DaysInMonth y m /\ days_from_civil y m d = n.
Proof.
  unfold civil_from_days.
  set (z := n + 719468). set (era := z / 146097).
  assert (Hz : 0 <= z - era * 146097 < 146097)
    by (subst era; Z.div_mod_to_equations; lia).
  clearbody era.
  remember (z - era * 146097) as doe eqn:Edoe.
  destruct (era_decompose doe Hz) as (c & q & a & doy & Hc & Hq & Ha & Hd & Hl & E).
  pose proof (year_of_era_formula c q a doy Hc Hq Ha Hd Hl) as Hy.
  cbv zeta in Hy. rewrite <- E in Hy. rewrite Hy. clear Hy.
  replace (doe - (365 * (100 * c + 4 * q + a) + (100 * c + 4 * q + a) / 4
                  - (100 * c + 4 * q + a) / 100)) with doy
    by (Z.div_mod_to_equations; lia).
  set (mp := (5 * doy + 2) / 153).
  assert (Hmp : 0 <= mp <= 11 /\ (doy <= 305 <-> mp <= 9)) by (subst mp; Z.div_mod_to_equations; lia).
  set (d := doy - (153 * mp + 2) / 5 + 1).
  assert (Emp : (5 * doy + 2) / 153 = mp) by reflexivity.
  clearbody mp. destruct Hmp as [Hmp Hmp9].
  assert (Hd1 : 1 <= d) by (subst d; Z.div_mod_to_equations; lia).
  split; [destruct (Z.ltb_spec mp 10); lia|]. split; [split; [exact Hd1|]|].
  - assert (Hcases : mp = 0 \/ mp = 1 \/ mp = 2 \/ mp = 3 \/ mp = 4 \/ mp = 5 \/
                     mp = 6 \/ mp = 7 \/ mp = 8 \/ mp = 9 \/ mp = 10 \/ mp = 11) by lia.
    subst d.
    repeat (destruct Hcases as [K | Hcases]); try rename Hcases into K; rewrite K in *;
      eval_closed_tests; unfold DaysInMonth; eval_closed_tests; eval_closed_tests;
      try (Z.div_mod_to_equations; lia).
    destruct (InLeapYear _) eqn:L; [Z.div_mod_to_equations; lia|].
    assert (doy <> 365); [|Z.div_mod_to_equations; lia].
    intro D. destruct (Hl D) as [-> Hq24]. unfold InLeapYear in L.
    apply orb_false_iff in L. destruct L as [L1 L2].
    apply Z.eqb_neq in L2. apply andb_false_iff in L1.
    destruct L1 as [L1 | L1].
    + apply Z.eqb_neq in L1. Z.div_mod_to_equations; lia.
    + apply negb_false_iff in L1. apply Z.eqb_eq in L1.
      assert (q = 24) by (Z.div_mod_to_equations; lia).
      specialize (Hq24 H). subst q c. Z.div_mod_to_equations; lia.
  - unfold days_from_civil.
    destruct (mp <? 10) eqn:E10; [apply Z.ltb_lt in E10 | apply Z.ltb_ge in E10].
    + replace (mp + 3 <=? 2) with false by (symmetry; apply Z.leb_gt; lia).
      replace (2 <? mp + 3) with true by (symmetry; apply Z.ltb_lt; lia).
      replace ((100 * c + 4 * q + a + era * 400) / 400) with era
        by (Z.div_mod_to_equations; lia).
      replace (mp + 3 - 3) with mp by lia.
      subst d z. Z.div_mod_to_equations; lia.
    + replace (mp - 9 <=? 2) with true by (symmetry; apply Z.leb_le; lia).
      replace (2 <? mp - 9) with false by (symmetry; apply Z.ltb_ge; lia).
      replace (100 * c + 4 * q + a + era * 400 + 1 - 1)
        with (100 * c + 4 * q + a + era * 400) by lia.
      replace ((100 * c + 4 * q + a + era * 400) / 400) with era
        by (Z.div_mod_to_equations; lia).
      replace (mp - 9 + 9) with mp by lia.
      subst d z. Z.div_mod_to_equations; lia.
Qed.

Lemma days_from_civil_day (y m d d' : Z) :
  days_from_civil y m d' = days_from_civil y m d + (d' - d).
Proof. unfold days_from_civil. lia. Qed.

Lemma days_from_civil_range (y m d : Z) :
  0 <= y <= 9999 -> 1 <= m <= 12 -> 1 <= d <= 31 ->
  first_day <= days_from_civil y m d <= last_day.
Proof.
  intros Hy Hm Hd. unfold days_from_civil, first_day, last_day.
  destruct (Z.leb_spec m 2); destruct (Z.ltb_spec 2 m); try lia;
    Z.div_mod_to_equations; lia.
Qed.

Lemma civil_from_days_year (n : Z) :
  first_day <= n <= last_day ->
  0 <= fst (fst (civil_from_days n)) <= 9999.
Proof.
  intros Hn. pose proof (civil_from_days_spec n) as H.
  destruct (civil_from_days n) as [[y m] d]. cbn [fst].
  destruct H as (Hm & Hd & E).
  assert (Hd31 : d <= 31).
  { unfold DaysInMonth in Hd.
    destruct (m =? 2); [destruct (InLeapYear y)|destruct (_ || _)]; lia. }
  revert E Hn. unfold days_from_civil, first_day, last_day.
  destruct (Z.leb_spec m 2); destruct (Z.ltb_spec 2 m); try lia; intros E Hn;
    Z.div_mod_to_equations; lia.
Qed.

End CalendarFacts.

(** ** Digits and date keys *)

Section DateKeys.
Import Calendar.

Lemma digit_value_char (k : Z) :
  0 <= k <= 9 -> JS.digit_value (JS.digit_char k) = Some k.
Proof.
  intros H.
  assert (C : k = 0 \/ k = 1 \/ k = 2 \/ k = 3 \/ k = 4 \/ k = 5 \/ k = 6 \/
              k = 7 \/ k = 8 \/ k = 9) by lia.
  repeat (destruct C as [-> | C]; [reflexivity|]). subst k. reflexivity.
Qed.

Lemma digit_value_range (c : ascii) (v : Z) :
  JS.digit_value c = Some v -> 0 <= v <= 9.
Proof.
  unfold JS.digit_value.
  destruct (Z.leb_spec 48 (Z.of_nat (nat_of_ascii c)));
    destruct (Z.leb_spec (Z.of_nat (nat_of_ascii c)) 57); cbn [andb];
    intros E; inversion E; lia.
Qed.

Lemma digits_value_range (s : string) (acc v : Z) :
  JS.digits_value acc s = Some v ->
  acc * 10 ^ Z.of_nat (String.length s) <= v
  < (acc + 1) * 10 ^ Z.of_nat (String.length s).
Proof.
  revert acc. induction s as [|c r IH]; intros acc E.
  - cbn in E. inversion E. cbn [String.length Z.of_nat]. lia.
  - cbn [JS.digits_value] in E.
    destruct (JS.digit_value c) as [k|] eqn:K; [|discriminate].
    apply digit_value_range in K. apply IH in E.
    cbn [String.length]. rewrite Nat2Z.inj_succ, Z.pow_succ_r by lia.
    assert (0 < 10 ^ Z.of_nat (String.length r)) by (apply Z.pow_pos_nonneg; lia).
    nia.
Qed.

Lemma append_String (c : ascii) (r s : string) :
  String c r ++ s = String c (r ++ s).
Proof. reflexivity. Qed.

Lemma append_Empty (s : string) : "" ++ s = s.
Proof. reflexivity. Qed.

Lemma digits_fixed_2 (v : Z) :
  JS.digits_fixed 2 v =
  String (JS.digit_char (v / 10 mod 10)) (String (JS.digit_char (v mod 10)) "").
Proof. reflexivity. Qed.

Lemma digits_fixed_4 (v : Z) :
  JS.digits_fixed 4 v =
  String (JS.digit_char (v / 10 / 10 / 10 mod 10))
    (String (JS.digit_char (v / 10 / 10 mod 10))
       (String (JS.digit_char (v / 10 mod 10))
          (String (JS.digit_char (v mod 10)) ""))).
Proof. reflexivity. Qed.

Lemma iso_year_4 (y : Z) :
  0 <= y <= 9999 -> JSDate.iso_year y = JS.digits_fixed 4 y.
Proof.
  intros H. unfold JSDate.iso_year.
  destruct (Z.leb_spec 0 y); destruct (Z.leb_spec y 9999); try lia. reflexivity.
Qed.

(** A date key printed by [toISOString] is read back by [new Date] as
    midnight UTC of the same day. *)
Lemma parse_iso_date (n : Z) :
  first_day <= n <= last_day ->
  JSDate.of_string (JSDate.iso_date n) = Some (MakeDate n 0).
Proof.
  intros Hn. pose proof (civil_from_days_spec n) as H.
  pose proof (civil_from_days_year n Hn) as Hy.
  unfold JSDate.of_string, JSDate.iso_date.
  destruct (civil_from_days n) as [[y m] d]. cbn [fst] in Hy.
  destruct H as (Hm & Hd & E).
  assert (Hd31 : d <= 31).
  { unfold DaysInMonth in Hd.
    destruct (m =? 2); [destruct (InLeapYear y)|destruct (_ || _)]; lia. }
  rewrite iso_year_4 by exact Hy.
  rewrite digits_fixed_4, !digits_fixed_2. unfold JSDate.parse.
  rewrite !append_String, !append_Empty.
  cbn [list_ascii_of_string string_of_list_ascii JS.digits_value].
  replace (Ascii.eqb "-" "-") with true by reflexivity. cbn [andb].
  rewrite !digit_value_char by (pose proof (Z.mod_pos_bound (y / 10 / 10 / 10) 10);
    pose proof (Z.mod_pos_bound (y / 10 / 10) 10);
    pose proof (Z.mod_pos_bound (y / 10) 10); pose proof (Z.mod_pos_bound y 10);
    pose proof (Z.mod_pos_bound (m / 10) 10); pose proof (Z.mod_pos_bound m 10);
    pose proof (Z.mod_pos_bound (d / 10) 10); pose proof (Z.mod_pos_bound d 10);
    lia).
  replace (10 * (10 * (10 * (10 * 0 + y / 10 / 10 / 10 mod 10) + y / 10 / 10 mod 10)
                 + y / 10 mod 10) + y mod 10) with y
    by (Z.div_mod_to_equations; lia).
  replace (10 * (10 * 0 + m / 10 mod 10) + m mod 10) with m
    by (Z.div_mod_to_equations; lia).
  replace (10 * (10 * 0 + d / 10 mod 10) + d mod 10) with d
    by (Z.div_mod_to_equations; lia).
  destruct (Z.leb_spec 1 m); destruct (Z.leb_spec m 12);
    destruct (Z.leb_spec 1 d); destruct (Z.leb_spec d (DaysInMonth y m)); try lia.
  cbn [andb]. now rewrite E.
Qed.

(** Whatever [new Date] accepts is midnight UTC of a day between
    0000-01-01 and 9999-12-31. *)
Lemma of_string_Some (s : string) (v : Z) :
  JSDate.of_string s = Some v ->
  exists n, v = MakeDate n 0 /\ first_day <= n <= last_day.
Proof.
  unfold JSDate.of_string, JSDate.parse.
  destruct (list_ascii_of_string s) as [|y1 [|y2 [|y3 [|y4 [|s1 [|m1 [|m2 [|s2 [|d1 [|d2 [|x l]]]]]]]]]]];
    try discriminate.
  destruct (Ascii.eqb s1 "-" && Ascii.eqb s2 "-"); [|discriminate].
  destruct (JS.digits_value 0 _) as [y|] eqn:Ey; [|discriminate].
  destruct (JS.digits_value 0 (string_of_list_ascii [m1; m2])) as [m|] eqn:Em; [|discriminate].
  destruct (JS.digits_value 0 (string_of_list_ascii [d1; d2])) as [d|] eqn:Ed; [|discriminate].
  apply digits_value_range in Ey. cbn in Ey.
  destruct (Z.leb_spec 1 m); destruct (Z.leb_spec m 12);
    destruct (Z.leb_spec 1 d); destruct (Z.leb_spec d (DaysInMonth y m));
    cbn [andb]; try discriminate.
  intros E. inversion E. eexists. split; [reflexivity|].
  apply days_from_civil_range; try lia.
  unfold DaysInMonth in *.
  destruct (m =? 2); [destruct (InLeapYear y)|destruct (_ || _)]; lia.
Qed.

End DateKeys.

(** ** [Date] methods on date keys *)

Section DateFacts.
Import Calendar JSDate.

Lemma TimeClip_small (v : Z) :
  - 8640000000000000 <= v <= 8640000000000000 -> TimeClip v = Some v.
Proof.
  intros H. unfold TimeClip.
  destruct (Z.leb_spec (Z.abs v) 8640000000000000); [reflexivity | lia].
Qed.

Lemma day_time_bound (n k : Z) :
  first_day - 40 <= n <= last_day + 40 -> - 2 * msPerDay <= k <= 2 * msPerDay ->
  - 8640000000000000 <= n * msPerDay + k <= 8640000000000000.
Proof. unfold first_day, last_day, msPerDay. lia. Qed.

(** [setDate] moves a date by whole days: to the day of the month [x]
    from the day of the month it is on. *)
Lemma setDate_from (tz v x : Z) :
  setDate tz (Some v) (Some x) =
  TimeClip (v + (x - snd (civil_from_days (Day (LocalTime tz v)))) * msPerDay).
Proof.
  unfold setDate. pose proof (civil_from_days_spec (Day (LocalTime tz v))) as H.
  destruct (civil_from_days (Day (LocalTime tz v))) as [[y m] d].
  destruct H as (_ & _ & E). cbn [snd]. f_equal.
  unfold MakeDay. rewrite (days_from_civil_day y m d 1), E.
  unfold UTC, MakeDate, TimeWithinDay, Day, LocalTime, msPerDay.
  Z.div_mod_to_equations. lia.
Qed.

Lemma getDate_Some (tz v : Z) :
  getDate tz (Some v) = Some (snd (civil_from_days (Day (LocalTime tz v)))).
Proof. reflexivity. Qed.

Lemma week_start_range (tz n : Z) :
  tz_range tz -> n - 8 <= week_start tz n <= n.
Proof.
  unfold tz_range, week_start, monday_on_or_before. intros H.
  destruct (Z.ltb_spec tz 0); destruct (Z.ltb_spec 0 tz);
    Z.div_mod_to_equations; lia.
Qed.

Lemma getStartOfWeek_key (tz n : Z) (key : string) :
  tz_range tz -> first_day <= n <= last_day -> date_key n key ->
  Utility.getStartOfWeek tz key = JS.Ok (iso_date (week_start tz n)).
Proof.
  unfold tz_range, date_key. intros Htz Hn Hkey.
  unfold Utility.getStartOfWeek. rewrite Hkey.
  rewrite getDate_Some. cbn [getDay JS.num_sub JS.num_add JS.num_eqb].
  rewrite setDate_from.
  set (wd := WeekDay (LocalTime tz (MakeDate n 0))).
  set (dd := snd (civil_from_days (Day (LocalTime tz (MakeDate n 0))))).
  set (adj := if wd =? 0 then -6 else 1).
  assert (Hwd : 0 <= wd < 7) by (apply Z.mod_pos_bound; lia).
  assert (Hadj : -6 <= adj - wd <= 0 /\ (wd = 0 -> adj = -6) /\ (wd <> 0 -> adj = 1))
    by (subst adj; destruct (Z.eqb_spec wd 0); lia).
  replace (dd - wd + adj - dd) with (adj - wd) by lia.
  rewrite TimeClip_small
    by (unfold MakeDate; replace (n * msPerDay + 0 + (adj - wd) * msPerDay)
          with ((n + (adj - wd)) * msPerDay + 0) by lia;
        apply day_time_bound; unfold msPerDay; lia).
  unfold setHours.
  assert (Hday : Day (LocalTime tz (MakeDate n 0 + (adj - wd) * msPerDay))
                 = (if tz <? 0 then n - 1 else n) + (adj - wd)).
  { unfold Day, LocalTime, MakeDate, msPerDay in *.
    destruct (Z.ltb_spec tz 0); Z.div_mod_to_equations; lia. }
  rewrite Hday.
  rewrite TimeClip_small
    by (unfold UTC, MakeDate, MakeTime;
        replace (((if tz <? 0 then n - 1 else n) + (adj - wd)) * msPerDay
                 + (0 * 3600000 + 0 * 60000 + 0 * 1000 + 0) - tz)
          with (((if tz <? 0 then n - 1 else n) + (adj - wd)) * msPerDay + (- tz)) by lia;
        apply day_time_bound; unfold msPerDay in *; destruct (tz <? 0); lia).
  unfold toISOString_date. do 2 f_equal.
  subst wd. unfold week_start, monday_on_or_before, WeekDay, UTC, MakeDate, MakeTime, Day,
    LocalTime, msPerDay in *.
  destruct (Z.ltb_spec tz 0); destruct (Z.ltb_spec 0 tz); try lia;
    Z.div_mod_to_equations; lia.
Qed.

Lemma getPreviousWeek_key (tz n : Z) (key : string) :
  first_day - 20 <= n <= last_day -> date_key n key ->
  Utility.getPreviousWeek tz key = JS.Ok (iso_date (n - 7)).
Proof.
  unfold date_key. intros Hn Hkey.
  unfold Utility.getPreviousWeek. rewrite Hkey, getDate_Some.
  cbn [JS.num_sub]. rewrite setDate_from.
  match goal with |- context [(?a - 7 - ?a) * _] => replace (a - 7 - a) with (-7) by lia end.
  rewrite TimeClip_small
    by (unfold MakeDate; replace (n * msPerDay + 0 + -7 * msPerDay)
          with ((n - 7) * msPerDay + 0) by lia;
        apply day_time_bound; unfold msPerDay; lia).
  unfold toISOString_date. do 2 f_equal.
  unfold Day, MakeDate, msPerDay. Z.div_mod_to_equations. lia.
Qed.

Lemma getStartOfMonth_key (tz n : Z) (key : string) :
  tz_range tz -> first_day <= n <= last_day -> date_key n key ->
  exists monthKey, Utility.getStartOfMonth tz key = JS.Ok monthKey.
Proof.
  unfold tz_range, date_key. intros Htz Hn Hkey.
  unfold Utility.getStartOfMonth. rewrite Hkey, setDate_from.
  pose proof (civil_from_days_spec (Day (LocalTime tz (MakeDate n 0)))) as H.
  destruct (civil_from_days (Day (LocalTime tz (MakeDate n 0)))) as [[y m] d].
  destruct H as (_ & Hd & _). cbn [snd].
  assert (Hd31 : d <= 31).
  { unfold DaysInMonth in Hd.
    destruct (m =? 2); [destruct (InLeapYear y)|destruct (_ || _)]; lia. }
  rewrite TimeClip_small
    by (unfold MakeDate; replace (n * msPerDay + 0 + (1 - d) * msPerDay)
          with ((n + (1 - d)) * msPerDay + 0) by lia;
        apply day_time_bound; unfold msPerDay; lia).
  cbn [toISOString_date JS.bind]. eexists. reflexivity.
Qed.

End DateFacts.

(** ** Comparisons of amounts *)

Lemma gtb_true (a b : Q) : JSQ.gtb a b = true <-> (b < a)%Q.
Proof.
  unfold JSQ.gtb. rewrite negb_true_iff, <- not_true_iff_false, Qle_bool_iff.
  split; [apply Qnot_le_lt | apply Qlt_not_le].
Qed.

Lemma gtb_false (a b : Q) : JSQ.gtb a b = false <-> (a <= b)%Q.
Proof. unfold JSQ.gtb. now rewrite negb_false_iff, Qle_bool_iff. Qed.

Lemma ltb_true (a b : Q) : JSQ.ltb a b = true <-> (a < b)%Q.
Proof. apply (gtb_true b a). Qed.

Lemma ltb_false (a b : Q) : JSQ.ltb a b = false <-> (b <= a)%Q.
Proof. apply (gtb_false b a). Qed.

Lemma geb_true (a b : Q) : JSQ.geb a b = true <-> (b <= a)%Q.
Proof. unfold JSQ.geb. apply Qle_bool_iff. Qed.

Lemma geb_false (a b : Q) : JSQ.geb a b = false <-> (a < b)%Q.
Proof.
  unfold JSQ.geb. rewrite <- not_true_iff_false, Qle_bool_iff.
  split; [apply Qnot_le_lt | apply Qlt_not_le].
Qed.

Lemma is_zero_true (a : Q) : JSQ.is_zero a = true <-> (a == 0)%Q.
Proof. apply Qeq_bool_iff. Qed.

Lemma is_zero_false (a : Q) : JSQ.is_zero a = false <-> ~ (a == 0)%Q.
Proof. unfold JSQ.is_zero. now rewrite <- not_true_iff_false, Qeq_bool_iff. Qed.

(** Decide the comparisons of the goal, keeping each outcome as an
    order fact among the hypotheses. *)
Ltac split_tests :=
  repeat match goal with
    | |- context [JSQ.gtb ?a ?b] =>
        let E := fresh "E" in
        destruct (JSQ.gtb a b) eqn:E;
        [apply gtb_true in E | apply gtb_false in E]
    | |- context [JSQ.ltb ?a ?b] =>
        let E := fresh "E" in
        destruct (JSQ.ltb a b) eqn:E;
        [apply ltb_true in E | apply ltb_false in E]
    | |- context [JSQ.geb ?a ?b] =>
        let E := fresh "E" in
        destruct (JSQ.geb a b) eqn:E;
        [apply geb_true in E | apply geb_false in E]
    | |- context [JSQ.is_zero ?a] =>
        let E := fresh "E" in
        destruct (JSQ.is_zero a) eqn:E;
        [apply is_zero_true in E | apply is_zero_false in E]
    end;
  cbn [andb orb negb].

(** [toFixed(0)] is within one half of its argument. *)
Lemma toFixed0_nearest (x : Q) :
  (Qabs (inject_Z (JSQ.toFixed0 x) - x) <= 1 # 2)%Q.
Proof.
  unfold JSQ.toFixed0. destruct (JSQ.ltb x 0) eqn:E.
  - apply ltb_true in E.
    pose proof (Qfloor_le (Qabs x + (1 # 2))) as H1.
    pose proof (Qlt_floor (Qabs x + (1 # 2))) as H2.
    rewrite inject_Z_plus in H2. rewrite inject_Z_opp.
    assert (Hx : (Qabs x == - x)%Q) by (apply Qabs_neg; lra).
    apply Qabs_Qle_condition.
    change (inject_Z 1) with 1%Q in H2. split; lra.
  - apply ltb_false in E.
    pose proof (Qfloor_le (x + (1 # 2))) as H1.
    pose proof (Qlt_floor (x + (1 # 2))) as H2.
    rewrite inject_Z_plus in H2. apply Qabs_Qle_condition.
    change (inject_Z 1) with 1%Q in H2. split; lra.
Qed.

(** ** The three rules of [generateInsights] *)

Section Rules.
Import InsightsEngine.

Lemma weeklyInsight_cases (weekly : WeeklySummary) :
  let cur := total (week_current weekly) in
  let last := total (week_last weekly) in
  (0 < cur -> 0 < last -> last < cur ->
   weeklyInsight weekly =
   [HigherThanLastWeek (JSQ.toFixed0 (Qabs (cur - last) / last * 100))])%Q /\
  (0 < cur -> 0 < last -> cur < last ->
   weeklyInsight weekly =
   [LowerThanLastWeek (JSQ.toFixed0 (Qabs (cur - last) / last * 100))])%Q /\
  (0 < cur -> 0 < last -> cur == last -> weeklyInsight weekly = [])%Q /\
  (0 < cur -> last == 0 -> weeklyInsight weekly = [StartComparing])%Q /\
  (cur <= 0 -> weeklyInsight weekly = [])%Q /\
  (last < 0 -> weeklyInsight weekly = [])%Q.
Proof.
  intros cur last. unfold weeklyInsight. fold cur last.
  repeat split; intros; split_tests; try reflexivity; try lra.
Qed.

Lemma weeklyInsight_percent (weekly : WeeklySummary) (p : Z) :
  In (HigherThanLastWeek p) (weeklyInsight weekly) \/
  In (LowerThanLastWeek p) (weeklyInsight weekly) ->
  (0 < total (week_current weekly))%Q /\ (0 < total (week_last weekly))%Q.
Proof.
  unfold weeklyInsight. split_tests; cbn [In]; intros H;
    try (split; assumption);
    repeat match goal with
      | H : _ \/ _ |- _ => destruct H
      | H : False |- _ => destruct H
      | H : _ = _ |- _ => discriminate H
      end.
Qed.

Lemma budgetInsight_cases (monthly : MonthlySummary) :
  let b := budget monthly in
  let t := total (month_current monthly) in
  let remaining := (b - t)%Q in
  let percentUsed := (t / b * 100)%Q in
  exists msg,
    budgetInsight monthly = [msg] /\ is_budget msg = true /\
    ((0 < b)%Q ->
     ((0 <= remaining /\ percentUsed < 80)%Q ->
      msg = Excellent (JSQ.toFixed0 percentUsed) remaining) /\
     ((remaining < 0)%Q -> msg = CriticalOverBudget (Qabs remaining)) /\
     ((0 <= remaining /\ 80 <= percentUsed)%Q ->
      msg = CautionNearLimit (JSQ.toFixed0 percentUsed))) /\
    ((b <= 0)%Q -> msg = SetBudgetTip).
Proof.
  intros b t remaining percentUsed. unfold budgetInsight.
  fold b t. fold remaining percentUsed.
  split_tests; try (exfalso; lra);
    eexists; (split; [reflexivity|]); (split; [reflexivity|]);
    repeat split; intros; try reflexivity; try lra.
Qed.

(** The callback of the [reduce] that picks the top category. *)
Lemma fold_top_invariant (ct : CategoryTotals) (ks : list Category) :
  forall (pre : list Category) (acc : Category) (mid : list Category) (a : Q),
    obj_get ct acc = Some a ->
    (forall x v, In x pre -> obj_get ct x = Some v -> (v <= a)%Q) ->
    (forall x v, In x mid -> obj_get ct x = Some v -> (v < a)%Q) ->
    (forall x, In x ks -> exists v, obj_get ct x = Some v) ->
    exists pre' r post' a',
      fold_left (fun a b => if JSQ.gtb_undef (obj_get ct a) (obj_get ct b)
                            then a else b) ks acc = r /\
      (pre ++ acc :: mid ++ ks = pre' ++ r :: post')%list /\
      obj_get ct r = Some a' /\
      (forall x v, In x pre' -> obj_get ct x = Some v -> (v <= a')%Q) /\
      (forall x v, In x post' -> obj_get ct x = Some v -> (v < a')%Q).
Proof.
  induction ks as [|b ks IH]; intros pre acc mid a Hacc Hpre Hmid Hks.
  - exists pre, acc, mid, a. rewrite app_nil_r. repeat split; assumption.
  - destruct (Hks b (or_introl eq_refl)) as [vb Hb].
    cbn [fold_left]. rewrite Hacc, Hb. cbn [JSQ.gtb_undef].
    destruct (JSQ.gtb a vb) eqn:E; [apply gtb_true in E | apply gtb_false in E].
    + destruct (IH pre acc (mid ++ [b])%list a Hacc Hpre) as (p & r & q & a' & H).
      * intros x v Hin Hx. apply in_app_or in Hin. destruct Hin as [Hin | [<- | []]].
        -- exact (Hmid x v Hin Hx).
        -- rewrite Hb in Hx. inversion Hx. subst v. exact E.
      * intros x Hin. apply Hks. now right.
      * exists p, r, q, a'. rewrite <- app_assoc in H. exact H.
    + destruct (IH (pre ++ acc :: mid)%list b [] vb Hb) as (p & r & q & a' & H).
      * intros x v Hin Hx. apply in_app_or in Hin. destruct Hin as [Hin | [<- | Hin]].
        -- pose proof (Hpre x v Hin Hx). lra.
        -- rewrite Hacc in Hx. inversion Hx. subst v. exact E.
        -- pose proof (Hmid x v Hin Hx). lra.
      * intros x v [].
      * intros x Hin. apply Hks. now right.
      * exists p, r, q, a'. rewrite <- app_assoc in H. exact H.
Qed.

Lemma reduce_top_last_max (ct : CategoryTotals) :
  ct <> [] ->
  exists pre c post a,
    reduce_top ct (Object_keys ct) = Some c /\
    Object_keys ct = (pre ++ c :: post)%list /\
    obj_get ct c = Some a /\
    (forall x v, obj_get ct x = Some v -> (v <= a)%Q) /\
    (forall x v, In x post -> obj_get ct x = Some v -> (v < a)%Q).
Proof.
  intros Hne.
  assert (Hall : forall x, In x (Object_keys ct) -> exists v, obj_get ct x = Some v)
    by (intros x; apply obj_get_Some).
  destruct (Object_keys ct) as [|k ks] eqn:Ek.
  - destruct ct; [now elim Hne | discriminate Ek].
  - destruct (Hall k (or_introl eq_refl)) as [a Ha].
    destruct (fold_top_invariant ct ks [] k [] a Ha) as (p & r & q & a' & H1 & H2 & H3 & H4 & H5).
    + intros x v [].
    + intros x v [].
    + intros x Hin. apply Hall. now right.
    + exists p, r, q, a'. cbn [reduce_top]. rewrite H1. cbn [app] in H2.
      repeat split; try assumption.
      intros x v Hx.
      assert (Hin : In x (k :: ks)).
      { rewrite <- Ek. apply obj_get_Some. now exists v. }
      rewrite H2 in Hin. apply in_app_or in Hin. destruct Hin as [Hin | [<- | Hin]].
      * exact (H4 x v Hin Hx).
      * rewrite H3 in Hx. inversion Hx. lra.
      * pose proof (H5 x v Hin Hx). lra.
Qed.

Lemma topCategoryInsight_cases (monthly : MonthlySummary) :
  let ct := categoryTotals (month_current monthly) in
  (ct = [] -> topCategoryInsight monthly = []) /\
  (ct <> [] ->
   exists pre c post a,
     topCategoryInsight monthly =
     (Observation c (Some a)
      :: (if Category_eqb c Entertainment || Category_eqb c Shopping
          then [Suggestion c] else []))%list /\
     Object_keys ct = (pre ++ c :: post)%list /\
     obj_get ct c = Some a /\
     (forall x v, obj_get ct x = Some v -> (v <= a)%Q) /\
     (forall x v, In x post -> obj_get ct x = Some v -> (v < a)%Q)).
Proof.
  intros ct. unfold topCategoryInsight. fold ct. split.
  - intros ->. reflexivity.
  - intros Hne.
    destruct (reduce_top_last_max ct Hne) as (pre & c & post & a & H1 & H2 & H3 & H4 & H5).
    exists pre, c, post, a. rewrite H1, H3.
    replace (0 <? Z.of_nat (List.length (Object_keys ct))) with true.
    + repeat split; assumption.
    + symmetry. apply Z.ltb_lt. rewrite H2, length_app. cbn [List.length]. lia.
Qed.

End Rules.

(** ** [generateInsights] as a whole *)

Section Generate.
Import InsightsEngine.

Lemma date_key_range (n : Z) (key : string) :
  date_key n key -> first_day <= n <= last_day.
Proof.
  unfold date_key. intros H. apply of_string_Some in H.
  destruct H as (n0 & E & Hn). unfold Calendar.MakeDate, Calendar.msPerDay in E. lia.
Qed.

(** On a date key for today the summaries are computed without an
    exception, and [generateInsights] returns the messages of the three
    rules in turn. Today is no earlier than 0000-01-09, so that the keys of
    this week and of the week before are dates of the years 0000 to 9999,
    which [new Date] reads back. *)
Lemma generateInsights_runs (tz : Z) (expenses : list Expense)
  (budgets : BudgetManager.Budgets) (today : string) (n : Z) :
  tz_range tz -> date_key n today -> first_day + 8 <= n ->
  exists weekly monthly,
    getWeeklySummary tz expenses today = JS.Ok weekly /\
    getMonthlySummary tz expenses budgets today = JS.Ok monthly /\
    generateInsights tz expenses budgets today = JS.Ok (insightsOf weekly monthly) /\
    currentWeekKey weekly = JSDate.iso_date (week_start tz n) /\
    lastWeekKey weekly = JSDate.iso_date (week_start tz n - 7) /\
    week_current weekly =
      calculateTotals (ExpenseManager.getExpensesByWeek tz expenses (currentWeekKey weekly)) /\
    week_last weekly =
      calculateTotals (ExpenseManager.getExpensesByWeek tz expenses (lastWeekKey weekly)) /\
    Utility.getStartOfMonth tz today = JS.Ok (currentMonthKey monthly) /\
    month_current monthly =
      calculateTotals (ExpenseManager.getExpensesByMonth expenses (currentMonthKey monthly)) /\
    budget monthly = BudgetManager.getBudget budgets "monthly" (currentMonthKey monthly).
Proof.
  intros Htz Hkey Hlo. pose proof (date_key_range n today Hkey) as Hn.
  pose proof (week_start_range tz n Htz) as Hw.
  destruct (getStartOfMonth_key tz n today Htz Hn Hkey) as [mk Hmk].
  unfold generateInsights, getWeeklySummary, getMonthlySummary,
    BudgetManager.getCurrentMonthlyBudget.
  rewrite (getStartOfWeek_key tz n today Htz Hn Hkey). cbn [JS.bind].
  rewrite (getPreviousWeek_key tz (week_start tz n) (JSDate.iso_date (week_start tz n)))
    by (try apply parse_iso_date; lia).
  rewrite Hmk. cbn [JS.bind].
  eexists. eexists. repeat split.
Qed.

Lemma weeklyInsight_shape (weekly : WeeklySummary) :
  weeklyInsight weekly = [] \/
  exists i, weeklyInsight weekly = [i] /\ is_weekly i = true.
Proof.
  unfold weeklyInsight. split_tests; (now left) || (right; eexists; now split).
Qed.

Lemma topCategoryInsight_shape (monthly : MonthlySummary) :
  topCategoryInsight monthly = [] \/
  (exists c a, topCategoryInsight monthly = [Observation c a]) \/
  (exists c a, topCategoryInsight monthly = [Observation c a; Suggestion c]).
Proof.
  unfold topCategoryInsight.
  destruct (0 <? _); [|now left].
  destruct (reduce_top _ _) as [c|]; [|now left].
  destruct (Category_eqb c Entertainment || Category_eqb c Shopping).
  - right. right. eexists. eexists. reflexivity.
  - right. left. eexists. eexists. reflexivity.
Qed.

(** The messages of each rule, read off the list [generateInsights]
    returns. *)
Lemma insightsOf_by_rule (weekly : WeeklySummary) (monthly : MonthlySummary) :
  filter is_weekly (insightsOf weekly monthly) = weeklyInsight weekly /\
  filter is_budget (insightsOf weekly monthly) = budgetInsight monthly /\
  filter is_observation (insightsOf weekly monthly)
  = filter is_observation (topCategoryInsight monthly) /\
  filter is_suggestion (insightsOf weekly monthly)
  = filter is_suggestion (topCategoryInsight monthly).
Proof.
  unfold insightsOf. rewrite !filter_app.
  destruct (budgetInsight_cases monthly) as (msg & -> & Hmsg & _).
  destruct (weeklyInsight_shape weekly) as [-> | (i & -> & Hi)];
    destruct (topCategoryInsight_shape monthly) as [-> | [(c & a & ->) | (c & a & ->)]];
    destruct msg; try discriminate Hmsg;
    try (destruct i; try discriminate Hi); repeat split.
Qed.

Lemma sum_amounts_nonneg (rs : list Expense) :
  Forall (fun e => (0 < amount e)%Q) rs -> (0 <= sum_amounts rs)%Q.
Proof.
  induction 1 as [|e rs He _ IH]; cbn [sum_amounts]; lra.
Qed.

Lemma total_nonneg (rs : list Expense) :
  Forall (fun e => (0 < amount e)%Q) rs -> (0 <= total (calculateTotals rs))%Q.
Proof.
  intros H. apply sum_amounts_nonneg in H.
  unfold calculateTotals; cbn [total]. rewrite fold_total. lra.
Qed.

Lemma Forall_filter_keep {A : Type} (P : A -> Prop) (f : A -> bool) (l : list A) :
  Forall P l -> Forall P (filter f l).
Proof.
  rewrite !Forall_forall. intros H x Hx. apply filter_In in Hx. now apply H.
Qed.

Lemma NoDup_app_local {A : Type} (l1 l2 : list A) :
  NoDup l1 -> NoDup l2 -> (forall x, In x l1 -> In x l2 -> False) ->
  NoDup (l1 ++ l2)%list.
Proof.
  induction l1 as [|a l1 IH]; intros H1 H2 H; cbn [app]; [exact H2|].
  inversion H1 as [|? ? Ha H1']; subst. constructor.
  - intros Hin. apply in_app_or in Hin. destruct Hin as [Hin | Hin].
    + exact (Ha Hin).
    + exact (H a (or_introl eq_refl) Hin).
  - apply IH; [exact H1' | exact H2 |].
    intros x Hx. apply H. now right.
Qed.

Lemma keys_obj_set_present (o : CategoryTotals) (k : Category) (v w : Q) :
  obj_get o k = Some w -> Object_keys (obj_set o k v) = Object_keys o.
Proof.
  induction o as [|[k' v'] r IH]; cbn [obj_get obj_set]; [discriminate|].
  destruct (Category_eqb k' k) eqn:E; intros H.
  - reflexivity.
  - unfold Object_keys in *. cbn [map fst]. now rewrite IH.
Qed.

Lemma keys_obj_set_absent (o : CategoryTotals) (k : Category) (v : Q) :
  obj_get o k = None -> Object_keys (obj_set o k v) = (Object_keys o ++ [k])%list.
Proof.
  induction o as [|[k' v'] r IH]; cbn [obj_get obj_set]; [reflexivity|].
  destruct (Category_eqb k' k) eqn:E; intros H; [discriminate|].
  unfold Object_keys in *. cbn [map fst app]. now rewrite IH.
Qed.

Lemma fold_categories_NoDup (rs : list Expense) (o : CategoryTotals) :
  NoDup (Object_keys o) -> NoDup (Object_keys (fold_left add_to_category rs o)).
Proof.
  revert o. induction rs as [|e rs IH]; intros o H; cbn [fold_left]; [exact H|].
  apply IH. unfold add_to_category.
  destruct (obj_get o (category e)) as [w|] eqn:E.
  - now rewrite (keys_obj_set_present o _ _ w E).
  - rewrite (keys_obj_set_absent o _ _ E).
    apply obj_get_None in E. apply NoDup_app_local; [exact H | | ].
    + constructor; [intros [] | constructor].
    + intros x Hx [<- | []]. exact (E Hx).
Qed.

Lemma categoryTotals_empty (rs : list Expense) :
  categoryTotals (calculateTotals rs) = [] <-> rs = [].
Proof.
  split; [|intros ->; reflexivity].
  destruct rs as [|e rs]; [reflexivity|]. intros H.
  assert (Hin : In (category e) (Object_keys (categoryTotals (calculateTotals (e :: rs))))).
  { unfold calculateTotals; cbn [categoryTotals]. apply fold_categories_keys.
    right. exists e. split; [now left | reflexivity]. }
  rewrite H in Hin. destruct Hin.
Qed.

End Generate.

(** ** The insight rules, end to end *)

Section InsightClaims.
Import InsightsEngine.



(** C8. The list [generateInsights] returns is, in this order: at most one
    weekly message (a comparison or "start comparing"), exactly one budget
    message, then nothing more, or the top-category observation, or the
    observation followed by the savings suggestion for that category. *)
Theorem insights_order (tz : Z) (expenses : list Expense)
  (budgets : BudgetManager.Budgets) (today : string) (n : Z) :
  tz_range tz -> date_key n today -> first_day + 8 <= n ->
  exists out w b t,
    generateInsights tz expenses budgets today = JS.Ok out /\
    out = (w ++ [b] ++ t)%list /\
    (w = [] \/ exists i, w = [i] /\ is_weekly i = true) /\
    is_budget b = true /\
    (t = [] \/
     (exists c a, t = [Observation c a]) \/
     (exists c a, t = [Observation c a; Suggestion c])).
Proof.
  intros Htz Hkey Hlo.
  destruct (generateInsights_runs tz expenses budgets today n Htz Hkey Hlo)
    as (weekly & monthly & _ & _ & Hg & _).
  destruct (budgetInsight_cases monthly) as (msg & E & Hmsg & _).
  exists (insightsOf weekly monthly), (weeklyInsight weekly), msg,
    (topCategoryInsight monthly).
  split; [exact Hg|]. split; [unfold insightsOf; now rewrite E|].
  split; [apply weeklyInsight_shape|]. split; [exact Hmsg|].
  apply topCategoryInsight_shape.
Qed.

(** C1, as the code has it. When the current month has records,
    [generateInsights] returns one observation; it names a category whose
    total in [categoryTotals] is the maximum, and of the categories tied
    for the maximum it names the one that comes last in the iteration
    order of the object (every key after it has a strictly smaller total).
    When the current month has no records there is no observation. *)
Theorem top_category_insight (tz : Z) (expenses : list Expense)
  (budgets : BudgetManager.Budgets) (today : string) (n : Z) :
  tz_range tz -> date_key n today -> first_day + 8 <= n ->
  exists monthly out,
    getMonthlySummary tz expenses budgets today = JS.Ok monthly /\
    generateInsights tz expenses budgets today = JS.Ok out /\
    let records :=
      ExpenseManager.getExpensesByMonth expenses (currentMonthKey monthly) in
    let ct := categoryTotals (calculateTotals records) in
    month_current monthly = calculateTotals records /\
    (records = [] -> filter is_observation out = []) /\
    (records <> [] ->
     exists pre c post a,
       filter is_observation out = [Observation c (Some a)] /\
       Object_keys ct = (pre ++ c :: post)%list /\
       NoDup (Object_keys ct) /\
       obj_get ct c = Some a /\
       (forall x v, obj_get ct x = Some v -> (v <= a)%Q) /\
       (forall x v, In x post -> obj_get ct x = Some v -> (v < a)%Q)).
Proof.
  intros Htz Hkey Hlo.
  destruct (generateInsights_runs tz expenses budgets today n Htz Hkey Hlo)
    as (weekly & monthly & _ & Hm & Hg & _ & _ & _ & _ & _ & Hc & _).
  exists monthly, (insightsOf weekly monthly).
  split; [exact Hm|]. split; [exact Hg|]. cbv zeta.
  split; [exact Hc|].
  destruct (insightsOf_by_rule weekly monthly) as (_ & _ & -> & _).
  destruct (topCategoryInsight_cases monthly) as [Hnil Hcons].
  cbv zeta in Hnil, Hcons. rewrite Hc in Hnil, Hcons. split.
  - intros Hrec. rewrite Hnil; [reflexivity|]. now apply categoryTotals_empty.
  - intros Hrec.
    destruct Hcons as (pre & c & post & a & H1 & H2 & H3 & H4 & H5).
    + intros Hct. apply categoryTotals_empty in Hct. exact (Hrec Hct).
    + exists pre, c, post, a. rewrite H1.
      split; [destruct (_ || _); reflexivity|].
      split; [exact H2|]. split; [|now repeat split].
      unfold calculateTotals; cbn [categoryTotals].
      apply fold_categories_NoDup. constructor.
Qed.




Lemma insights_order_witness :
  tz_range IST /\ date_key 20096 "2025-01-08" /\ first_day + 8 <= 20096 /\
  exists out w b t,
    generateInsights IST sample_expenses sample_budgets "2025-01-08" = JS.Ok out /\
    out = (w ++ [b] ++ t)%list /\
    (w = [] \/ exists i, w = [i] /\ is_weekly i = true) /\
    is_budget b = true /\
    (t = [] \/
     (exists c a, t = [Observation c a]) \/
     (exists c a, t = [Observation c a; Suggestion c])).
Proof.
  assert (H1 : tz_range IST) by (unfold tz_range, IST, Calendar.msPerDay; lia).
  assert (H2 : date_key 20096 "2025-01-08") by (vm_compute; reflexivity).
  assert (H3 : first_day + 8 <= 20096) by (unfold first_day; lia).
  repeat (split; [assumption|]).
  exact (insights_order IST sample_expenses sample_budgets "2025-01-08" 20096 H1 H2 H3).
Defined.

Lemma top_category_insight_witness :
  tz_range IST /\ date_key 20096 "2025-01-08" /\ first_day + 8 <= 20096 /\
  exists monthly out,
    getMonthlySummary IST sample_expenses sample_budgets "2025-01-08" = JS.Ok monthly /\
    generateInsights IST sample_expenses sample_budgets "2025-01-08" = JS.Ok out /\
    let records :=
      ExpenseManager.getExpensesByMonth sample_expenses (currentMonthKey monthly) in
    let ct := categoryTotals (calculateTotals records) in
    month_current monthly = calculateTotals records /\
    (records = [] -> filter is_observation out = []) /\
    (records <> [] ->
     exists pre c post a,
       filter is_observation out = [Observation c (Some a)] /\
       Object_keys ct = (pre ++ c :: post)%list /\
       NoDup (Object_keys ct) /\
       obj_get ct c = Some a /\
       (forall x v, obj_get ct x = Some v -> (v <= a)%Q) /\
       (forall x v, In x post -> obj_get ct x = Some v -> (v < a)%Q)).
Proof.
  assert (H1 : tz_range IST) by (unfold tz_range, IST, Calendar.msPerDay; lia).
  assert (H2 : date_key 20096 "2025-01-08") by (vm_compute; reflexivity).
  assert (H3 : first_day + 8 <= 20096) by (unfold first_day; lia).
  repeat (split; [assumption|]).
  exact (top_category_insight IST sample_expenses sample_budgets "2025-01-08" 20096 H1 H2 H3).
Defined.

(** The claim C1 words the tie-break the other way round: with Food and
    Transport both at 100, Food is the first category with the maximum,
    and the observation names Transport. *)
Lemma top_category_tie_counterexample :
  generateInsights 0 tie_expenses ∅ "2025-01-08"
  = JS.Ok [StartComparing; SetBudgetTip; Observation Transport (Some 100%Q)] /\
  categoryTotals (calculateTotals
                    (ExpenseManager.getExpensesByMonth tie_expenses "2025-01"))
  = [(Food, 100%Q); (Transport, 100%Q)] /\
  first_max (categoryTotals
               (calculateTotals
                  (ExpenseManager.getExpensesByMonth tie_expenses "2025-01")))
  = Some (Food, 100%Q).
Proof. vm_compute. repeat split. Qed.

End InsightClaims.

(** ** [BudgetManager.setBudget] *)

Section Budget.
Import BudgetManager.

Lemma setBudget_accepted (budgets : Budgets) (type key : string) (amount : Q) :
  type = "monthly" \/ type = "weekly" ->
  setBudget budgets type key amount
  = (true, <[type := <[key := amount]> (default ∅ (budgets !! type))]> budgets).
Proof.
  intros H. unfold setBudget.
  replace (negb (String.eqb type "monthly") && negb (String.eqb type "weekly"))
    with false by (destruct H as [-> | ->]; reflexivity).
  destruct (budgets !! type) as [inner|] eqn:E.
  - now rewrite E.
  - rewrite lookup_insert_eq. cbn [default]. now rewrite insert_insert_eq.
Qed.

(** C10. [setBudget] with a type other than 'monthly' and 'weekly' returns
    false and leaves the budgets as they were. With one of the two types it
    returns true, the entry of (type, key) becomes the amount given,
    whatever it was before, and the entry of every other (type, key) pair
    is what it was. *)
Theorem setBudget_effect (budgets : Budgets) (type key : string) (amount : Q) :
  (type <> "monthly" -> type <> "weekly" ->
   setBudget budgets type key amount = (false, budgets)) /\
  (type = "monthly" \/ type = "weekly" ->
   fst (setBudget budgets type key amount) = true /\
   entry (snd (setBudget budgets type key amount)) type key = Some amount /\
   forall type' key' : string,
     (type', key') <> (type, key) ->
     entry (snd (setBudget budgets type key amount)) type' key'
     = entry budgets type' key').
Proof.
  split.
  - intros H1 H2. unfold setBudget.
    apply String.eqb_neq in H1. apply String.eqb_neq in H2.
    now rewrite H1, H2.
  - intros H. rewrite (setBudget_accepted budgets type key amount H).
    cbn [fst snd]. split; [reflexivity|]. unfold entry. split.
    + rewrite lookup_insert_eq. apply lookup_insert_eq.
    + intros type' key' Hne.
      destruct (decide (type = type')) as [<- | Ht].
      * rewrite lookup_insert_eq.
        assert (Hk : key <> key') by (intros <-; now apply Hne).
        rewrite lookup_insert_ne by exact Hk.
        destruct (budgets !! type); [reflexivity | apply lookup_empty].
      * now rewrite lookup_insert_ne.
Qed.

End Budget.

(** ** [ExpenseManager.getExpensesByWeek] *)

Section WeekFilter.
Import Calendar JSDate.

Lemma date_key_unique (n n' : Z) (key : string) :
  date_key n key -> date_key n' key -> n = n'.
Proof.
  unfold date_key. intros H H'. rewrite H in H'. inversion H' as [E].
  unfold MakeDate, msPerDay in E. lia.
Qed.

(** The end of the week that starts on day [dw]: the last millisecond of
    the local day six days later, which still lies after midnight UTC of
    day [dw + 6] and before midnight UTC of day [dw + 7]. *)
Lemma endOfWeek_value (tz dw : Z) :
  tz_range tz -> first_day <= dw <= last_day ->
  exists e,
    setHours tz
      (setDate tz (copy (Some (MakeDate dw 0)))
         (JS.num_add (getDate tz (copy (Some (MakeDate dw 0)))) (Some 6)))
      23 59 59 999 = Some e /\
    forall dr, MakeDate dr 0 <= e <-> dr <= dw + 6.
Proof.
  unfold tz_range. intros Htz Hn. unfold copy.
  rewrite getDate_Some. cbn [JS.num_add]. rewrite setDate_from.
  match goal with |- context [(?a + 6 - ?a) * _] => replace (a + 6 - a) with 6 by lia end.
  rewrite TimeClip_small
    by (unfold MakeDate; replace (dw * msPerDay + 0 + 6 * msPerDay)
          with ((dw + 6) * msPerDay + 0) by lia;
        apply day_time_bound; unfold msPerDay; lia).
  unfold setHours.
  assert (Hday : Day (LocalTime tz (MakeDate dw 0 + 6 * msPerDay))
                 = (if tz <? 0 then dw + 5 else dw + 6)).
  { unfold Day, LocalTime, MakeDate, msPerDay in *.
    destruct (Z.ltb_spec tz 0); Z.div_mod_to_equations; lia. }
  rewrite Hday.
  rewrite TimeClip_small.
  - eexists. split; [reflexivity|]. intros dr.
    unfold UTC, MakeDate, MakeTime, msPerDay in *.
    destruct (Z.ltb_spec tz 0); lia.
  - unfold UTC, MakeDate, MakeTime, first_day, last_day, msPerDay in *.
    destruct (Z.ltb_spec tz 0); lia.
Qed.

(** C6. A record is in [getExpensesByWeek(w)] exactly when it is in the
    store and its date lies in the seven days from [w] to [w] + 6 days,
    both included, whatever the host time zone; so a record dated [w] + 6
    days is in the result and a record dated [w] + 7 days is not. *)
Theorem getExpensesByWeek_window (tz : Z) (expenses : list Expense)
  (w : string) (r : Expense) :
  tz_range tz ->
  (In r (ExpenseManager.getExpensesByWeek tz expenses w) <->
   In r expenses /\
   exists dw dr, date_key dw w /\ date_key dr (date r) /\ dw <= dr <= dw + 6) /\
  (forall dw dr,
      In r expenses -> date_key dw w -> date_key dr (date r) ->
      (dr = dw + 6 -> In r (ExpenseManager.getExpensesByWeek tz expenses w)) /\
      (dr = dw + 7 -> ~ In r (ExpenseManager.getExpensesByWeek tz expenses w))).
Proof.
  intros Htz.
  assert (Hiff : In r (ExpenseManager.getExpensesByWeek tz expenses w) <->
                 In r expenses /\
                 exists dw dr, date_key dw w /\ date_key dr (date r) /\ dw <= dr <= dw + 6).
  { unfold ExpenseManager.getExpensesByWeek. rewrite filter_In.
    apply and_iff_compat_l.
    destruct (of_string w) as [v|] eqn:Ew.
    - destruct (of_string_Some w v Ew) as (dw & -> & Hdw).
      destruct (endOfWeek_value tz dw Htz Hdw) as (e & -> & He).
      destruct (of_string (date r)) as [vr|] eqn:Er.
      + destruct (of_string_Some _ vr Er) as (dr & -> & Hdr).
        cbn [JS.num_geb JS.num_leb]. rewrite andb_true_iff, !Z.leb_le, He. split.
        * intros [H1 H2]. exists dw, dr. unfold date_key.
          repeat split; try assumption; unfold MakeDate, msPerDay in H1; lia.
        * intros (dw' & dr' & H1 & H2 & H3).
          rewrite (date_key_unique dw dw' w Ew H1), (date_key_unique dr dr' _ Er H2).
          unfold MakeDate, msPerDay. lia.
      + cbn [JS.num_geb]. split; [discriminate|].
        intros (dw' & dr' & _ & H & _). unfold date_key in H. congruence.
    - replace (JS.num_geb (of_string (date r)) None) with false
        by (destruct (of_string (date r)); reflexivity).
      cbn [andb]. split; [discriminate|].
      intros (dw' & dr' & H & _). unfold date_key in H. congruence. }
  split; [exact Hiff|].
  intros dw dr Hin Hw Hr. split.
  - intros ->. apply Hiff. split; [exact Hin|]. exists dw, (dw + 6). repeat split; try assumption; lia.
  - intros -> H. apply Hiff in H. destruct H as (_ & dw' & dr' & H1 & H2 & H3).
    rewrite <- (date_key_unique dw dw' w Hw H1) in H3.
    rewrite <- (date_key_unique (dw + 7) dr' _ Hr H2) in H3. lia.
Qed.

Lemma getExpensesByWeek_window_witness :
  tz_range IST /\
  (In (mkExpense "d2" 40 Transport "Bus fare" "2025-01-08")
      (ExpenseManager.getExpensesByWeek IST sample_expenses "2025-01-06") <->
   In (mkExpense "d2" 40 Transport "Bus fare" "2025-01-08") sample_expenses /\
   exists dw dr,
     date_key dw "2025-01-06" /\
     date_key dr (date (mkExpense "d2" 40 Transport "Bus fare" "2025-01-08")) /\
     dw <= dr <= dw + 6) /\
  (forall dw dr,
      In (mkExpense "d2" 40 Transport "Bus fare" "2025-01-08") sample_expenses ->
      date_key dw "2025-01-06" ->
      date_key dr (date (mkExpense "d2" 40 Transport "Bus fare" "2025-01-08")) ->
      (dr = dw + 6 ->
       In (mkExpense "d2" 40 Transport "Bus fare" "2025-01-08")
          (ExpenseManager.getExpensesByWeek IST sample_expenses "2025-01-06")) /\
      (dr = dw + 7 ->
       ~ In (mkExpense "d2" 40 Transport "Bus fare" "2025-01-08")
           (ExpenseManager.getExpensesByWeek IST sample_expenses "2025-01-06"))).
Proof.
  assert (H : tz_range IST) by (unfold tz_range, IST, msPerDay; lia).
  split; [exact H|].
  exact (getExpensesByWeek_window IST sample_expenses "2025-01-06"
           (mkExpense "d2" 40 Transport "Bus fare" "2025-01-08") H).
Defined.

End WeekFilter.

(** ** [Utility]: week and month keys *)

Section UtilityClaims.
Import Calendar JSDate.

Lemma week_start_utc (n : Z) : week_start 0 n = monday_on_or_before n.
Proof. unfold week_start. cbn [Z.ltb Z.compare]. lia. Qed.

Lemma week_start_east (tz n : Z) :
  0 < tz -> week_start tz n = monday_on_or_before n - 1.
Proof.
  intros H. unfold week_start.
  destruct (Z.ltb_spec tz 0); destruct (Z.ltb_spec 0 tz); lia.
Qed.

Lemma monday_on_or_before_spec (n : Z) :
  (monday_on_or_before n + 4) mod 7 = 1 /\
  n - 6 <= monday_on_or_before n <= n.
Proof. unfold monday_on_or_before. Z.div_mod_to_equations. lia. Qed.

(** On a host at UTC [getStartOfWeek] is the Monday on or before the
    date. *)
Lemma getStartOfWeek_utc (n : Z) (key : string) :
  date_key n key ->
  Utility.getStartOfWeek 0 key = JS.Ok (iso_date (monday_on_or_before n)).
Proof.
  intros H. rewrite <- week_start_utc.
  apply getStartOfWeek_key; [unfold tz_range, msPerDay; lia | | exact H].
  exact (date_key_range n key H).
Qed.

(** On a host east of Greenwich it is the day before that Monday. *)
Lemma getStartOfWeek_east (tz n : Z) (key : string) :
  0 < tz < msPerDay -> date_key n key ->
  Utility.getStartOfWeek tz key = JS.Ok (iso_date (monday_on_or_before n - 1)).
Proof.
  intros Htz H. rewrite <- (week_start_east tz n) by lia.
  apply getStartOfWeek_key; [unfold tz_range; lia | | exact H].
  exact (date_key_range n key H).
Qed.

(** C5 fails on the code. On a host at UTC+05:30, [getStartOfWeek] of
    Wednesday 2025-01-08 (day 20096) is "2025-01-05", a Sunday, and not
    "2025-01-06", the Monday on or before that date: the Monday is found in
    local time, and [toISOString] prints its local midnight in UTC, which
    falls on the day before. *)
Theorem getStartOfWeek_ist_sunday :
  date_key 20096 "2025-01-08" /\
  iso_date (monday_on_or_before 20096) = "2025-01-06" /\
  Utility.getStartOfWeek IST "2025-01-08" = JS.Ok "2025-01-05" /\
  date_key 20093 "2025-01-05" /\ (20093 + 4) mod 7 = 0.
Proof. vm_compute. repeat split. Qed.

Lemma digit_char_not_dash (k : Z) :
  0 <= k <= 9 -> Ascii.eqb (JS.digit_char k) "-" = false.
Proof.
  intros H.
  assert (C : k = 0 \/ k = 1 \/ k = 2 \/ k = 3 \/ k = 4 \/ k = 5 \/ k = 6 \/
              k = 7 \/ k = 8 \/ k = 9) by lia.
  repeat (destruct C as [-> | C]; [reflexivity|]). subst k. reflexivity.
Qed.

Lemma split_month_key (c1 c2 c3 c4 c5 c6 : ascii) :
  Ascii.eqb c1 "-" = false -> Ascii.eqb c2 "-" = false ->
  Ascii.eqb c3 "-" = false -> Ascii.eqb c4 "-" = false ->
  Ascii.eqb c5 "-" = false -> Ascii.eqb c6 "-" = false ->
  JS.split "-"
    (String c1 (String c2 (String c3 (String c4
       (String "-" (String c5 (String c6 "")))))))
  = [String c1 (String c2 (String c3 (String c4 "")));
     String c5 (String c6 "")].
Proof.
  intros H1 H2 H3 H4 H5 H6. cbn [JS.split].
  rewrite H1, H2, H3, H4, H5, H6. reflexivity.
Qed.

Lemma Number_digits_4 (y : Z) :
  0 <= y <= 9999 -> JS.Number (JS.digits_fixed 4 y) = Some y.
Proof.
  intros H. rewrite digits_fixed_4. unfold JS.Number. cbn [JS.digits_value].
  rewrite !digit_value_char by (Z.div_mod_to_equations; lia).
  f_equal. Z.div_mod_to_equations. lia.
Qed.

Lemma Number_digits_2 (m : Z) :
  0 <= m <= 99 -> JS.Number (JS.digits_fixed 2 m) = Some m.
Proof.
  intros H. rewrite digits_fixed_2. unfold JS.Number. cbn [JS.digits_value].
  rewrite !digit_value_char by (Z.div_mod_to_equations; lia).
  f_equal. Z.div_mod_to_equations. lia.
Qed.

Lemma forall_range_spec (n : nat) :
  forall (i : Z) (P : Z -> bool),
    forall_range n i P = true ->
    forall z, i <= z < i + Z.of_nat n -> P z = true.
Proof.
  induction n as [|k IH]; intros i P H z Hz.
  - cbn [Z.of_nat] in Hz. lia.
  - cbn [forall_range] in H. apply andb_true_iff in H. destruct H as [H1 H2].
    destruct (Z.eq_dec z i) as [-> | Hne]; [exact H1|].
    apply (IH (i + 1) P H2). lia.
Qed.

(** A year from 1000 to 9999 prints as its four digits. *)
Lemma to_string_year (y : Z) :
  1000 <= y <= 9999 -> JS.to_string (Some y) = JS.digits_fixed 4 y.
Proof.
  intros H. apply String.eqb_eq.
  apply (forall_range_spec (Z.to_nat 9000) 1000
           (fun y => String.eqb (JS.to_string (Some y)) (JS.digits_fixed 4 y))).
  - vm_compute. reflexivity.
  - lia.
Qed.

Lemma padStart_month (m : Z) :
  1 <= m <= 12 ->
  JS.padStart 2 "0" (JS.to_string (Some m)) = JS.digits_fixed 2 m.
Proof.
  intros H.
  assert (C : m = 1 \/ m = 2 \/ m = 3 \/ m = 4 \/ m = 5 \/ m = 6 \/ m = 7 \/
              m = 8 \/ m = 9 \/ m = 10 \/ m = 11 \/ m = 12) by lia.
  repeat (destruct C as [-> | C]; [reflexivity|]). subst m. reflexivity.
Qed.

Lemma getPreviousMonth_numbers (y m : Z) :
  0 <= y <= 9999 -> 0 <= m <= 99 ->
  Utility.getPreviousMonth (month_key y m)
  = JS.to_string (if m =? 1 then Some (y - 1) else Some y) ++ "-"
    ++ JS.padStart 2 "0" (JS.to_string (if m =? 1 then Some 12 else Some (m - 1))).
Proof.
  intros Hy Hm. unfold Utility.getPreviousMonth, month_key.
  pose proof (Number_digits_4 y Hy) as Ny. pose proof (Number_digits_2 m Hm) as Nm.
  rewrite digits_fixed_4, digits_fixed_2 in *.
  rewrite !append_String, !append_Empty.
  rewrite split_month_key by (apply digit_char_not_dash; Z.div_mod_to_equations; lia).
  cbn [map]. rewrite Ny, Nm. cbn [JS.nth_num nth_error JS.num_eqb JS.num_sub].
  destruct (m =? 1); reflexivity.
Qed.

(** C7. For a key [YYYY-MM] with a month from 01 to 12, [getPreviousMonth]
    gives December of the year before for January and otherwise the same
    year with the month one less, the month written with two digits and
    the year as the number it is; from the year 1000 on that is the key of
    the month before, and "2025-01" gives "2024-12". *)
Theorem getPreviousMonth_rollover (y m : Z) :
  0 <= y <= 9999 -> 1 <= m <= 12 ->
  (m = 1 ->
   Utility.getPreviousMonth (month_key y m)
   = JS.to_string (Some (y - 1)) ++ "-12") /\
  (m <> 1 ->
   Utility.getPreviousMonth (month_key y m)
   = JS.to_string (Some y) ++ "-" ++ JS.digits_fixed 2 (m - 1)) /\
  (1001 <= y ->
   Utility.getPreviousMonth (month_key y m)
   = if m =? 1 then month_key (y - 1) 12 else month_key y (m - 1)) /\
  Utility.getPreviousMonth "2025-01" = "2024-12".
Proof.
  intros Hy Hm.
  rewrite (getPreviousMonth_numbers y m) by lia.
  split; [|split; [|split]].
  - intros ->. reflexivity.
  - intros Hne. destruct (Z.eqb_spec m 1); [contradiction|].
    now rewrite padStart_month by lia.
  - intros Hy'. unfold month_key. destruct (Z.eqb_spec m 1).
    + rewrite to_string_year by lia. reflexivity.
    + rewrite to_string_year, padStart_month by lia. reflexivity.
  - reflexivity.
Qed.

Lemma getPreviousMonth_rollover_witness :
  0 <= 2025 <= 9999 /\ 1 <= 1 <= 12 /\
  (1 = 1 ->
   Utility.getPreviousMonth (month_key 2025 1)
   = JS.to_string (Some (2025 - 1)) ++ "-12") /\
  (1 <> 1 ->
   Utility.getPreviousMonth (month_key 2025 1)
   = JS.to_string (Some 2025) ++ "-" ++ JS.digits_fixed 2 (1 - 1)) /\
  (1001 <= 2025 ->
   Utility.getPreviousMonth (month_key 2025 1)
   = if 1 =? 1 then month_key (2025 - 1) 12 else month_key 2025 (1 - 1)) /\
  Utility.getPreviousMonth "2025-01" = "2024-12".
Proof.
  split; [lia|]. split; [lia|].
  apply (getPreviousMonth_rollover 2025 1); lia.
Defined.

(** C9, as the code has it. When [new Date] of the input is an invalid
    date, [getStartOfWeek], [getStartOfMonth] and [getPreviousWeek] throw
    the [RangeError] of [toISOString]; on a date key they return a key.
    [getPreviousMonth] has no failing path: a key whose month part is not a
    number gives a key that ends in NaN. *)
Theorem bucket_functions_on_bad_input :
  (forall (tz : Z) (s : string),
      of_string s = None ->
      Utility.getStartOfWeek tz s = JS.Throw (JS.RangeError "Invalid time value") /\
      Utility.getStartOfMonth tz s = JS.Throw (JS.RangeError "Invalid time value") /\
      Utility.getPreviousWeek tz s = JS.Throw (JS.RangeError "Invalid time value")) /\
  (forall (tz n : Z) (key : string),
      tz_range tz -> date_key n key ->
      exists k1 k2 k3,
        Utility.getStartOfWeek tz key = JS.Ok k1 /\
        Utility.getStartOfMonth tz key = JS.Ok k2 /\
        Utility.getPreviousWeek tz key = JS.Ok k3) /\
  (forall key : string,
      JS.nth_num (map JS.Number (JS.split "-" key)) 1 = JS.NaN ->
      exists year : string, Utility.getPreviousMonth key = year ++ "-NaN").
Proof.
  split; [|split].
  - intros tz s H.
    unfold Utility.getStartOfWeek, Utility.getStartOfMonth, Utility.getPreviousWeek.
    rewrite H. repeat split.
  - intros tz n key Htz Hkey. pose proof (date_key_range n key Hkey) as Hn.
    destruct (getStartOfMonth_key tz n key Htz Hn Hkey) as [k2 H2].
    exists (iso_date (week_start tz n)), k2, (iso_date (n - 7)).
    split; [now apply getStartOfWeek_key|]. split; [exact H2|].
    apply getPreviousWeek_key; [lia | exact Hkey].
  - intros key H. unfold Utility.getPreviousMonth. rewrite H.
    eexists. reflexivity.
Qed.

(** The claim C9 asks every bucket function to fail on malformed input:
    [getPreviousMonth] returns "NaN-NaN" for a string that is no key, and
    [new Date] takes the same string for an invalid date. *)
Lemma getPreviousMonth_garbage_counterexample :
  Utility.getPreviousMonth "garbage" = "NaN-NaN" /\
  of_string "garbage" = None.
Proof. split; reflexivity. Qed.

End UtilityClaims.

(** ** [ExpenseManager]: adding, updating and deleting *)

Section StoreOperations.
Import ExpenseManager.

Lemma trimStart_no_lead (s : string) : starts_with_space (JS.trimStart s) = false.
Proof.
  induction s as [|c r IH]; [reflexivity|]. cbn [JS.trimStart].
  destruct (JS.is_space c) eqn:E; [exact IH | exact E].
Qed.

Lemma trimStart_fixed (s : string) :
  starts_with_space s = false -> JS.trimStart s = s.
Proof. destruct s as [|c r]; [reflexivity|]. cbn. now intros ->. Qed.

Lemma trimEnd_no_trail (s : string) : ends_with_space (JS.trimEnd s) = false.
Proof.
  induction s as [|c r IH]; [reflexivity|]. cbn [JS.trimEnd].
  destruct (JS.trimEnd r) as [|c' r'] eqn:E.
  - destruct (JS.is_space c) eqn:Ec; [reflexivity | exact Ec].
  - exact IH.
Qed.

Lemma trimEnd_fixed (s : string) :
  ends_with_space s = false -> JS.trimEnd s = s.
Proof.
  induction s as [|c r IH]; [reflexivity|]. intros H. cbn [JS.trimEnd].
  destruct r as [|c' r'].
  - cbn in H |- *. now rewrite H.
  - rewrite IH by exact H. reflexivity.
Qed.

Lemma trimEnd_keeps_lead (s : string) :
  starts_with_space s = false -> starts_with_space (JS.trimEnd s) = false.
Proof.
  destruct s as [|c r]; [reflexivity|]. cbn [starts_with_space JS.trimEnd].
  intros H. destruct (JS.trimEnd r); [rewrite H|]; exact H.
Qed.

(** A trimmed string has no white space at either end, and trimming it
    again changes nothing. *)
Lemma trim_spec (s : string) :
  starts_with_space (JS.trim s) = false /\
  ends_with_space (JS.trim s) = false /\
  JS.trim (JS.trim s) = JS.trim s.
Proof.
  unfold JS.trim.
  assert (H1 : starts_with_space (JS.trimEnd (JS.trimStart s)) = false)
    by apply trimEnd_keeps_lead, trimStart_no_lead.
  assert (H2 : ends_with_space (JS.trimEnd (JS.trimStart s)) = false)
    by apply trimEnd_no_trail.
  split; [exact H1|]. split; [exact H2|].
  rewrite (trimStart_fixed _ H1). apply trimEnd_fixed, H2.
Qed.

Lemma findIndex_Some {A : Type} (f : A -> bool) (xs : list A) (i : nat) :
  JS.findIndex f xs = Some i ->
  (exists x, xs !! i = Some x /\ f x = true) /\
  (forall j y, (j < i)%nat -> xs !! j = Some y -> f y = false).
Proof.
  revert i. induction xs as [|x r IH]; intros i; cbn [JS.findIndex]; [discriminate|].
  destruct (f x) eqn:E.
  - intros [= <-]. split; [exists x; now split | intros j y Hj; lia].
  - destruct (JS.findIndex f r) as [k|]; [|discriminate].
    intros [= <-]. destruct (IH k eq_refl) as [H1 H2]. split; [exact H1|].
    intros [|j] y Hj; cbn.
    + now intros [= <-].
    + apply H2. lia.
Qed.

Lemma findIndex_None {A : Type} (f : A -> bool) (xs : list A) :
  JS.findIndex f xs = None <-> forall x, In x xs -> f x = false.
Proof.
  induction xs as [|x r IH]; cbn [JS.findIndex In].
  - split; [intros _ x [] | reflexivity].
  - destruct (f x) eqn:E.
    + split; [discriminate | intros H; rewrite (H x (or_introl eq_refl)) in E; discriminate].
    + destruct (JS.findIndex f r) as [k|]; cbn [option_map].
      * split; [discriminate|]. intros H.
        assert (Hn : Some k = None) by (apply IH; intros y Hy; apply H; now right).
        discriminate Hn.
      * split; [|reflexivity]. intros _ y [<- | Hy]; [exact E|].
        now apply (proj1 IH).
Qed.

Lemma map_id_insert (expenses : list Expense) (i : nat) (e old : Expense) :
  expenses !! i = Some old -> id e = id old ->
  map id (<[i := e]> expenses) = map id expenses.
Proof.
  revert i. induction expenses as [|x r IH]; intros [|i]; cbn; try discriminate.
  - intros [= ->] ->. reflexivity.
  - intros H1 H2. f_equal. now apply IH.
Qed.

Lemma Forall_insert_keep {A : Type} (P : A -> Prop) (l : list A) (i : nat) (x : A) :
  Forall P l -> P x -> Forall P (<[i := x]> l).
Proof.
  intros H Hx. revert i. induction H as [|y r Hy Hr IH]; intros [|i]; cbn;
    constructor; auto.
Qed.

Lemma filter_length_le {A : Type} (f : A -> bool) (l : list A) :
  (List.length (filter f l) <= List.length l)%nat.
Proof.
  induction l as [|x r IH]; cbn; [lia|]. destruct (f x); cbn; lia.
Qed.

Lemma filter_length_lt {A : Type} (f : A -> bool) (l : list A) :
  (List.length (filter f l) < List.length l)%nat <-> exists x, In x l /\ f x = false.
Proof.
  induction l as [|x r IH]; cbn [filter List.length In].
  - split; [lia | intros (x & [] & _)].
  - pose proof (filter_length_le f r) as Hle. destruct (f x) eqn:E; cbn [List.length].
    + rewrite <- Nat.succ_lt_mono, IH. split.
      * intros (y & Hy & Hf). exists y. split; [now right | exact Hf].
      * intros (y & [<- | Hy] & Hf); [congruence|]. now exists y.
    + split; [|lia]. intros _. exists x. split; [now left | exact E].
Qed.

(** X1. [addExpense] stores one record more, after the ones it had, with
    the identifier and fields given and the description trimmed: the
    description stored has no white space at either end. *)
Theorem addExpense_effect (expenses : list Expense) (uuid : string)
  (amt : Q) (cat : Category) (descr day : string) :
  let e := fst (addExpense expenses uuid amt cat descr day) in
  let after := snd (addExpense expenses uuid amt cat descr day) in
  List.length after = S (List.length expenses) /\
  (forall i r, expenses !! i = Some r -> after !! i = Some r) /\
  after !! List.length expenses = Some e /\
  (forall r, In r after <-> In r expenses \/ r = e) /\
  id e = uuid /\ amount e = amt /\ category e = cat /\ date e = day /\
  description e = JS.trim descr /\
  starts_with_space (description e) = false /\
  ends_with_space (description e) = false.
Proof.
  cbn [addExpense fst snd id amount category date description].
  split; [rewrite length_app; cbn [List.length]; lia|].
  split; [intros i r H; now apply lookup_app_l_Some|].
  split; [now rewrite list_lookup_middle|].
  split.
  - intros r. rewrite in_app_iff. cbn [In]. intuition.
  - destruct (trim_spec descr) as (H1 & H2 & _). repeat split; assumption.
Qed.

(** X2. [updateExpense] on an identifier no record has returns [null] and
    leaves the expenses as they are. Otherwise it returns the new record,
    which takes the place of the first record with that identifier: the
    number of records, the identifiers in their order and every other
    record stay as they were. *)
Theorem updateExpense_effect (expenses : list Expense) (target : string)
  (amt : Q) (cat : Category) (descr day : string) :
  ((forall r, In r expenses -> id r <> target) ->
   updateExpense expenses target amt cat descr day = (None, expenses)) /\
  ((exists r, In r expenses /\ id r = target) ->
   exists index old,
     let updated := mkExpense target amt cat (JS.trim descr) day in
     let after := snd (updateExpense expenses target amt cat descr day) in
     fst (updateExpense expenses target amt cat descr day) = Some updated /\
     expenses !! index = Some old /\ id old = target /\
     (forall j r, (j < index)%nat -> expenses !! j = Some r -> id r <> target) /\
     after !! index = Some updated /\
     (forall j, j <> index -> after !! j = expenses !! j) /\
     List.length after = List.length expenses /\
     map id after = map id expenses).
Proof.
  unfold updateExpense. split.
  - intros H.
    replace (JS.findIndex (fun e => String.eqb (id e) target) expenses) with (@None nat);
      [reflexivity|].
    symmetry. apply findIndex_None. intros x Hx. apply String.eqb_neq. now apply H.
  - intros (r & Hr & Hid).
    destruct (JS.findIndex (fun e => String.eqb (id e) target) expenses) as [index|] eqn:E.
    + destruct (findIndex_Some _ _ _ E) as [(old & Hold & Hf) Hfirst].
      apply String.eqb_eq in Hf.
      assert (Hlt : (index < List.length expenses)%nat)
        by (apply lookup_lt_is_Some; eexists; exact Hold).
      exists index, old. cbn [fst snd].
      rewrite list_lookup_insert_eq by exact Hlt.
      split; [reflexivity|]. split; [exact Hold|]. split; [exact Hf|].
      split; [intros j y Hj Hy; apply String.eqb_neq; exact (Hfirst j y Hj Hy)|].
      split; [reflexivity|].
      split; [intros j Hj; apply list_lookup_insert_ne; congruence|].
      split; [apply length_insert|].
      apply (map_id_insert expenses index _ old Hold). now rewrite Hf.
    + exfalso. rewrite findIndex_None in E. specialize (E r Hr).
      apply String.eqb_neq in E. exact (E Hid).
Qed.

Lemma filter_all_keep {A : Type} (f : A -> bool) (l : list A) :
  (forall x, In x l -> f x = true) -> filter f l = l.
Proof.
  induction l as [|x r IH]; intros H; [reflexivity|]. cbn [filter].
  rewrite (H x (or_introl eq_refl)). f_equal. apply IH. intros y Hy. apply H. now right.
Qed.

Lemma delete_one (expenses : list Expense) (target : string) :
  NoDup (map id expenses) -> (exists r, In r expenses /\ id r = target) ->
  S (List.length (filter (fun e => negb (String.eqb (id e) target)) expenses))
  = List.length expenses.
Proof.
  induction expenses as [|x r IH]; intros Hnd (y & Hy & Hid); [destruct Hy|].
  cbn [map] in Hnd. inversion Hnd as [|? ? Hx Hnd']; subst. cbn [filter List.length].
  destruct (String.eqb (id x) (id y)) eqn:E; cbn [negb].
  - apply String.eqb_eq in E. f_equal. f_equal. apply filter_all_keep.
    intros z Hz. apply negb_true_iff, String.eqb_neq. intros Hzy.
    apply Hx. rewrite E, <- Hzy. now apply in_map.
  - cbn [List.length]. f_equal. apply IH; [exact Hnd'|].
    exists y. split; [|reflexivity].
    destruct Hy as [-> | Hy]; [|exact Hy].
    rewrite String.eqb_refl in E. discriminate.
Qed.

(** X3. [deleteExpense] keeps, in their order, exactly the records whose
    identifier differs from the one given, and returns true exactly when a
    record had it. With unique identifiers a deletion that returns true
    removes one record. *)
Theorem deleteExpense_effect (expenses : list Expense) (target : string) :
  (forall r, In r (snd (deleteExpense expenses target)) <->
             In r expenses /\ id r <> target) /\
  (fst (deleteExpense expenses target) = true <->
   exists r, In r expenses /\ id r = target) /\
  ((forall r, In r expenses -> id r <> target) ->
   deleteExpense expenses target = (false, expenses)) /\
  (NoDup (map id expenses) -> fst (deleteExpense expenses target) = true ->
   S (List.length (snd (deleteExpense expenses target))) = List.length expenses).
Proof.
  unfold deleteExpense. cbn [fst snd].
  assert (Hret : (List.length (filter (fun e => negb (String.eqb (id e) target)) expenses)
                  <? List.length expenses)%nat = true <->
                 exists r, In r expenses /\ id r = target).
  { rewrite Nat.ltb_lt, filter_length_lt. split; intros (r & Hr & H); exists r;
      (split; [exact Hr|]).
    - apply negb_false_iff in H. now apply String.eqb_eq.
    - apply negb_false_iff. now apply String.eqb_eq. }
  split; [|split; [exact Hret|split]].
  - intros r. rewrite filter_In, negb_true_iff, String.eqb_neq. reflexivity.
  - intros H. rewrite filter_all_keep, Nat.ltb_irrefl; [reflexivity|].
    intros x Hx. apply negb_true_iff, String.eqb_neq, H, Hx.
  - intros Hnd Ht. apply Hret in Ht. now apply delete_one.
Qed.

(** X4. The store invariant (unique identifiers, positive amounts) is
    kept by [addExpense] with a fresh identifier and a positive amount, by
    [updateExpense] with a positive amount and by [deleteExpense]. *)
Theorem valid_store_preserved (expenses : list Expense) :
  valid_store expenses ->
  (forall uuid amt cat descr day,
      (forall r, In r expenses -> id r <> uuid) -> (0 < amt)%Q ->
      valid_store (snd (addExpense expenses uuid amt cat descr day))) /\
  (forall target amt cat descr day,
      (0 < amt)%Q ->
      valid_store (snd (updateExpense expenses target amt cat descr day))) /\
  (forall target, valid_store (snd (deleteExpense expenses target))).
Proof.
  intros [Hnd Hpos]. split; [|split].
  - intros uuid amt cat descr day Hfresh Hamt. cbn [addExpense snd]. split.
    + rewrite map_app. cbn [map id]. apply NoDup_app_local; [exact Hnd | |].
      * constructor; [intros [] | constructor].
      * intros x Hx [<- | []]. apply in_map_iff in Hx.
        destruct Hx as (r & Hr & Hin). exact (Hfresh r Hin Hr).
    + apply Forall_app. split; [exact Hpos|]. constructor; [exact Hamt | constructor].
  - intros target amt cat descr day Hamt. unfold updateExpense.
    destruct (JS.findIndex (fun e => String.eqb (id e) target) expenses) as [index|] eqn:E;
      cbn [snd]; [|now split].
    destruct (findIndex_Some _ _ _ E) as [(old & Hold & Hf) _].
    apply String.eqb_eq in Hf. split.
    + rewrite (map_id_insert expenses index _ old Hold); [exact Hnd | now rewrite Hf].
    + apply Forall_insert_keep; [exact Hpos | exact Hamt].
  - intros target. cbn [deleteExpense snd]. split.
    + clear Hpos. induction expenses as [|x r IH]; [constructor|].
      cbn [map] in Hnd. inversion Hnd as [|? ? Hx Hnd']; subst. cbn [filter].
      destruct (negb (String.eqb (id x) target)); [|now apply IH].
      cbn [map]. constructor; [|now apply IH].
      intros Hin. apply Hx. apply in_map_iff in Hin.
      destruct Hin as (y & Hy & Hin). apply filter_In in Hin.
      apply in_map_iff. exists y. now split.
    + now apply Forall_filter_keep.
Qed.

Lemma valid_store_preserved_witness :
  valid_store sample_expenses /\
  (forall uuid amt cat descr day,
      (forall r, In r sample_expenses -> id r <> uuid) -> (0 < amt)%Q ->
      valid_store (snd (addExpense sample_expenses uuid amt cat descr day))) /\
  (forall target amt cat descr day,
      (0 < amt)%Q ->
      valid_store (snd (updateExpense sample_expenses target amt cat descr day))) /\
  (forall target, valid_store (snd (deleteExpense sample_expenses target))).
Proof.
  assert (H : valid_store sample_expenses).
  { split.
    - repeat (constructor; [cbn; intuition discriminate|]). constructor.
    - repeat (constructor; [reflexivity|]). constructor. }
  split; [exact H|].
  exact (valid_store_preserved sample_expenses H).
Defined.

(** X5. Deleting the identifier of a record just added under a fresh
    identifier returns true and gives back the expenses as they were
    before it was added. *)
Theorem delete_after_add (expenses : list Expense) (uuid : string)
  (amt : Q) (cat : Category) (descr day : string) :
  (forall r, In r expenses -> id r <> uuid) ->
  deleteExpense (snd (addExpense expenses uuid amt cat descr day)) uuid
  = (true, expenses).
Proof.
  intros Hfresh. unfold deleteExpense, addExpense. cbn [snd].
  rewrite filter_app. cbn [filter id]. rewrite String.eqb_refl. cbn [negb].
  rewrite app_nil_r, filter_all_keep.
  - rewrite length_app. cbn [List.length]. f_equal. apply Nat.ltb_lt. lia.
  - intros x Hx. apply negb_true_iff, String.eqb_neq, Hfresh, Hx.
Qed.

Lemma delete_after_add_witness :
  (forall r, In r sample_expenses -> id r <> "n1") /\
  deleteExpense (snd (addExpense sample_expenses "n1" 25 Bills " Internet " "2025-01-08")) "n1"
  = (true, sample_expenses).
Proof.
  assert (H : forall r, In r sample_expenses -> id r <> "n1")
    by (intros r Hr; cbn in Hr; intuition (subst; discriminate)).
  split; [exact H|].
  exact (delete_after_add sample_expenses "n1" 25 Bills " Internet " "2025-01-08" H).
Defined.

Lemma sort_insert_last {A : Type} (cmp : A -> A -> JS.num) (x : A) (l : list A) :
  (forall y, In y l -> JS.sorts_after cmp y x = false) ->
  JS.sort_insert cmp x l = (l ++ [x])%list.
Proof.
  induction l as [|y r IH]; intros H; [reflexivity|]. cbn [JS.sort_insert app].
  rewrite (H y (or_introl eq_refl)). f_equal. apply IH. intros z Hz. apply H. now right.
Qed.

(** A [sort] whose callback never asks for an exchange leaves the array in
    its order. *)
Lemma sort_in_order {A : Type} (cmp : A -> A -> JS.num) (l : list A) :
  (forall x y, In x l -> In y l -> JS.sorts_after cmp x y = false) ->
  JS.sort cmp l = l.
Proof.
  intros H. unfold JS.sort.
  assert (G : forall done rest,
             (done ++ rest)%list = l ->
             fold_left (fun acc x => JS.sort_insert cmp x acc) rest done = l).
  { intros done rest. revert done. induction rest as [|x r IH]; intros done E.
    - cbn. now rewrite app_nil_r in E.
    - cbn [fold_left]. rewrite sort_insert_last.
      + apply IH. now rewrite <- app_assoc.
      + intros y Hy. apply H; rewrite <- E; apply in_or_app; [now left | right; now left]. }
  now apply (G [] l).
Qed.

(** X6. [getDailyExpenses] returns the records dated the given day, in
    the order the store has them: among records of one date the sort
    callback never asks for an exchange. *)
Theorem getDailyExpenses_in_order (expenses : list Expense) (day : string) :
  getDailyExpenses expenses day
  = filter (fun e => String.eqb (date e) day) expenses /\
  (forall r, In r (getDailyExpenses expenses day) <->
             In r expenses /\ date r = day).
Proof.
  assert (E : getDailyExpenses expenses day
              = filter (fun e => String.eqb (date e) day) expenses).
  { unfold getDailyExpenses. apply sort_in_order.
    intros x y Hx Hy. apply filter_In in Hx, Hy.
    destruct Hx as [_ Hx], Hy as [_ Hy]. apply String.eqb_eq in Hx, Hy.
    unfold JS.sorts_after. rewrite Hx, Hy.
    destruct (JSDate.of_string day) as [v|]; cbn [JS.num_sub]; [|reflexivity].
    apply Z.ltb_ge. lia. }
  split; [exact E|].
  intros r. rewrite E, filter_In, String.eqb_eq. reflexivity.
Qed.

End StoreOperations.

(** ** [BudgetManager]: reading back what was set *)

Section BudgetReadBack.
Import BudgetManager InsightsEngine.

Lemma or_zero_positive (a : Q) : (0 < a)%Q -> JSQ.or_zero (Some a) = a.
Proof.
  intros H. unfold JSQ.or_zero.
  destruct (JSQ.is_zero a) eqn:E; [|reflexivity].
  apply is_zero_true in E. lra.
Qed.

Lemma entry_after_setBudget (budgets : Budgets) (type key : string) (amt : Q)
  (type' key' : string) :
  type = "monthly" \/ type = "weekly" ->
  entry (snd (setBudget budgets type key amt)) type' key'
  = if decide ((type', key') = (type, key)) then Some amt
    else entry budgets type' key'.
Proof.
  intros H. rewrite (setBudget_accepted budgets type key amt H). cbn [snd].
  unfold entry. destruct (decide (type = type')) as [<- | Ht].
  - rewrite lookup_insert_eq. destruct (decide (key = key')) as [<- | Hk].
    + rewrite lookup_insert_eq. now rewrite decide_True.
    + rewrite lookup_insert_ne by exact Hk. rewrite decide_False by congruence.
      destruct (budgets !! type); [reflexivity | apply lookup_empty].
  - rewrite lookup_insert_ne by exact Ht. now rewrite decide_False by congruence.
Qed.

Lemma getBudget_after_setBudget_parts (budgets : Budgets) (type key : string)
  (amt : Q) :
  type = "monthly" \/ type = "weekly" ->
  (getBudget (snd (setBudget budgets type key amt)) type key == amt)%Q /\
  ((0 < amt)%Q -> getBudget (snd (setBudget budgets type key amt)) type key = amt).
Proof.
  intros H. unfold getBudget. rewrite entry_after_setBudget, decide_True by auto.
  split; [apply or_zero_Some | apply or_zero_positive].
Qed.



(** X8. Setting a budget twice for one type and key leaves the second
    amount, and two settings for different pairs give the same budgets in
    either order. *)
Theorem setBudget_twice (budgets : Budgets) (type key : string) (a1 a2 : Q)
  (type' key' : string) :
  type = "monthly" \/ type = "weekly" ->
  type' = "monthly" \/ type' = "weekly" ->
  snd (setBudget (snd (setBudget budgets type key a1)) type key a2)
  = snd (setBudget budgets type key a2) /\
  ((type, key) <> (type', key') ->
   snd (setBudget (snd (setBudget budgets type key a1)) type' key' a2)
   = snd (setBudget (snd (setBudget budgets type' key' a2)) type key a1)).
Proof.
  intros H H'. rewrite !setBudget_accepted by assumption. cbn [snd]. split.
  - rewrite lookup_insert_eq.
    cbv beta iota delta [default from_option Datatypes.id].
    now rewrite insert_insert_eq, insert_insert_eq.
  - intros Hne.
    destruct (decide (type = type')) as [<- | Ht].
    + assert (Hk : key <> key') by congruence.
      rewrite !lookup_insert_eq.
      cbv beta iota delta [default from_option Datatypes.id].
      rewrite !insert_insert_eq. f_equal. now apply insert_insert_ne.
    + rewrite !lookup_insert_ne by congruence. now apply insert_insert_ne.
Qed.

Lemma setBudget_twice_witness :
  ("monthly" = "monthly" \/ "monthly" = "weekly") /\
  ("weekly" = "monthly" \/ "weekly" = "weekly") /\
  snd (setBudget (snd (setBudget sample_budgets "monthly" "2025-02" 100)) "monthly" "2025-02" 200)
  = snd (setBudget sample_budgets "monthly" "2025-02" 200) /\
  (("monthly", "2025-02") <> ("weekly", "2025-01-06") ->
   snd (setBudget (snd (setBudget sample_budgets "monthly" "2025-02" 100)) "weekly" "2025-01-06" 200)
   = snd (setBudget (snd (setBudget sample_budgets "weekly" "2025-01-06" 200)) "monthly" "2025-02" 100)).
Proof.
  assert (H1 : "monthly" = "monthly" \/ "monthly" = "weekly") by (left; reflexivity).
  assert (H2 : "weekly" = "monthly" \/ "weekly" = "weekly") by (right; reflexivity).
  split; [exact H1|]. split; [exact H2|].
  exact (setBudget_twice sample_budgets "monthly" "2025-02" 100 200 "weekly" "2025-01-06" H1 H2).
Defined.

Lemma getBudget_frame (budgets : Budgets) (type key : string) (amt : Q)
  (type' key' : string) :
  (type', key') <> (type, key) ->
  getBudget (snd (setBudget budgets type key amt)) type' key'
  = getBudget budgets type' key'.
Proof.
  intros Hne.
  destruct (decide (type = "monthly" \/ type = "weekly")) as [H | H].
  - unfold getBudget. now rewrite entry_after_setBudget, decide_False.
  - unfold setBudget.
    replace (String.eqb type "monthly") with false
      by (symmetry; apply String.eqb_neq; intros E; apply H; now left).
    replace (String.eqb type "weekly") with false
      by (symmetry; apply String.eqb_neq; intros E; apply H; now right).
    reflexivity.
Qed.

(** X9. No call of [setBudget] other than the one for the monthly budget
    of the current month changes what [generateInsights] returns; weekly
    budgets in particular are never read. *)
Theorem insights_ignore_other_budgets (tz : Z) (expenses : list Expense)
  (budgets : Budgets) (type key : string) (amt : Q) (today : string) :
  (forall k, Utility.getStartOfMonth tz today = JS.Ok k ->
             (type, key) <> ("monthly", k)) ->
  generateInsights tz expenses (snd (setBudget budgets type key amt)) today
  = generateInsights tz expenses budgets today.
Proof.
  intros H. unfold generateInsights, getMonthlySummary, getCurrentMonthlyBudget.
  destruct (getWeeklySummary tz expenses today) as [weekly|e]; [|reflexivity].
  cbn [JS.bind].
  destruct (Utility.getStartOfMonth tz today) as [k|e] eqn:E; [|reflexivity].
  cbn [JS.bind]. rewrite getBudget_frame; [reflexivity|].
  intros Heq. apply (H k eq_refl). now symmetry.
Qed.

Lemma insights_ignore_other_budgets_witness :
  (forall k, Utility.getStartOfMonth IST "2025-01-08" = JS.Ok k ->
             ("weekly", "2025-01-06") <> ("monthly", k)) /\
  generateInsights IST sample_expenses
    (snd (setBudget sample_budgets "weekly" "2025-01-06" 500)) "2025-01-08"
  = generateInsights IST sample_expenses sample_budgets "2025-01-08".
Proof.
  assert (H : forall k, Utility.getStartOfMonth IST "2025-01-08" = JS.Ok k ->
                        ("weekly", "2025-01-06") <> ("monthly", k))
    by (intros k _; discriminate).
  split; [exact H|].
  exact (insights_ignore_other_budgets IST sample_expenses sample_budgets
           "weekly" "2025-01-06" 500 "2025-01-08" H).
Defined.

(** X10. A positive budget saved for the month [getStartOfMonth] gives
    for today, as the budget form does, is the budget
    [getCurrentMonthlyBudget] reads, and [generateInsights] then reports on
    it: the "set a budget" tip is not among its messages. *)
Theorem saved_budget_is_used (tz : Z) (expenses : list Expense)
  (budgets : Budgets) (amt : Q) (today : string) (n : Z) :
  tz_range tz -> date_key n today -> first_day + 8 <= n -> (0 < amt)%Q ->
  exists k out,
    Utility.getStartOfMonth tz today = JS.Ok k /\
    getCurrentMonthlyBudget tz (snd (setBudget budgets "monthly" k amt)) today
    = JS.Ok amt /\
    generateInsights tz expenses (snd (setBudget budgets "monthly" k amt)) today
    = JS.Ok out /\
    ~ In SetBudgetTip out.
Proof.
  intros Htz Hkey Hlo Hamt.
  destruct (getStartOfMonth_key tz n today Htz (date_key_range n today Hkey) Hkey)
    as [k Hk].
  destruct (generateInsights_runs tz expenses
              (snd (setBudget budgets "monthly" k amt)) today n Htz Hkey Hlo)
    as (weekly & monthly & _ & _ & Hg & _ & _ & _ & _ & Hm & _ & Hb).
  rewrite Hk in Hm. inversion Hm as [Ek]. rewrite <- Ek in Hb.
  assert (Hget : getBudget (snd (setBudget budgets "monthly" k amt)) "monthly" k = amt).
  { destruct (getBudget_after_setBudget_parts budgets "monthly" k amt) as [_ H];
      [now left | now apply H]. }
  rewrite Hget in Hb.
  exists k, (insightsOf weekly monthly).
  split; [exact Hk|]. split.
  - unfold getCurrentMonthlyBudget. rewrite Hk. cbn [JS.bind]. now rewrite Hget.
  - split; [exact Hg|]. intros Hin.
    assert (Hf : In SetBudgetTip (filter is_budget (insightsOf weekly monthly)))
      by (apply filter_In; now split).
    destruct (insightsOf_by_rule weekly monthly) as (_ & Eb & _). rewrite Eb in Hf.
    destruct (budgetInsight_cases monthly) as (msg & Em & _ & Hpos & _).
    cbv zeta in Hpos. rewrite Em in Hf. destruct Hf as [Hf | []]. subst msg.
    rewrite Hb in Hpos. destruct (Hpos Hamt) as (H1 & H2 & H3).
    destruct (Qlt_le_dec (amt - total (month_current monthly)) 0) as [Hr | Hr].
    + discriminate (H2 Hr).
    + destruct (Qlt_le_dec (total (month_current monthly) / amt * 100) 80) as [Hp | Hp].
      * discriminate (H1 (conj Hr Hp)).
      * discriminate (H3 (conj Hr Hp)).
Qed.

Lemma saved_budget_is_used_witness :
  tz_range IST /\ date_key 20096 "2025-01-08" /\ first_day + 8 <= 20096 /\
  (0 < 9000)%Q /\
  exists k out,
    Utility.getStartOfMonth IST "2025-01-08" = JS.Ok k /\
    getCurrentMonthlyBudget IST (snd (setBudget ∅ "monthly" k 9000)) "2025-01-08"
    = JS.Ok 9000%Q /\
    generateInsights IST sample_expenses (snd (setBudget ∅ "monthly" k 9000)) "2025-01-08"
    = JS.Ok out /\
    ~ In SetBudgetTip out.
Proof.
  assert (H1 : tz_range IST) by (unfold tz_range, IST, Calendar.msPerDay; lia).
  assert (H2 : date_key 20096 "2025-01-08") by (vm_compute; reflexivity).
  assert (H3 : first_day + 8 <= 20096) by (unfold first_day; lia).
  assert (H4 : (0 < 9000)%Q) by reflexivity.
  repeat (split; [assumption|]).
  exact (saved_budget_is_used IST sample_expenses ∅ 9000 "2025-01-08" 20096 H1 H2 H3 H4).
Defined.

End BudgetReadBack.

(** ** [Utility]: how the week helpers compose *)

Section WeekHelpers.
Import Calendar JSDate.



Lemma week_start_twice (tz n : Z) :
  week_start tz (week_start tz n)
  = if tz =? 0 then week_start tz n else week_start tz n - 7.
Proof.
  unfold week_start, monday_on_or_before.
  destruct (Z.eqb_spec tz 0); destruct (Z.ltb_spec tz 0); destruct (Z.ltb_spec 0 tz);
    try lia; Z.div_mod_to_equations; lia.
Qed.



End WeekHelpers.

(** ** Month keys *)

Section MonthKeys.
Import Calendar JSDate.

Lemma month_of_day_of_year (mp d : Z) :
  0 <= mp <= 11 -> 1 <= d ->
  (153 * mp + 2) / 5 + d - 1 < (153 * (mp + 1) + 2) / 5 ->
  (5 * ((153 * mp + 2) / 5 + d - 1) + 2) / 153 = mp.
Proof. intros H1 H2 H3. Z.div_mod_to_equations. lia. Qed.

Lemma DaysInMonth_month_start (y m : Z) :
  1 <= m <= 12 -> m <> 2 ->
  let mp := if 2 <? m then m - 3 else m + 9 in
  (153 * mp + 2) / 5 + DaysInMonth y m = (153 * (mp + 1) + 2) / 5.
Proof.
  intros Hm H2.
  assert (C : m = 1 \/ m = 3 \/ m = 4 \/ m = 5 \/ m = 6 \/ m = 7 \/ m = 8 \/
              m = 9 \/ m = 10 \/ m = 11 \/ m = 12) by lia.
  repeat (destruct C as [-> | C]; [reflexivity|]). subst m. reflexivity.
Qed.

Lemma InLeapYear_parts (c q a era : Z) :
  0 <= c <= 3 -> 0 <= q <= 24 -> 0 <= a <= 3 ->
  InLeapYear (100 * c + 4 * q + a + era * 400 + 1) = true ->
  a = 3 /\ (q = 24 -> c = 3).
Proof.
  intros Hc Hq Ha. unfold InLeapYear.
  rewrite orb_true_iff, andb_true_iff, negb_true_iff, !Z.eqb_eq, Z.eqb_neq.
  intros H. Z.div_mod_to_equations. lia.
Qed.

Lemma civil_days_inverse (y m d : Z) :
  1 <= m <= 12 -> 1 <= d <= DaysInMonth y m ->
  civil_from_days (days_from_civil y m d) = (y, m, d).
Proof.
  intros Hm Hd. unfold days_from_civil.
  set (Y := if m <=? 2 then y - 1 else y).
  set (era := Y / 400). set (yoe := Y - era * 400).
  assert (Hyoe : 0 <= yoe <= 399) by (subst yoe era; Z.div_mod_to_equations; lia).
  set (mp := if 2 <? m then m - 3 else m + 9).
  assert (Hmp : 0 <= mp <= 11 /\ (m <= 2 <-> 10 <= mp) /\
                m = (if mp <? 10 then mp + 3 else mp - 9)).
  { subst mp. destruct (Z.ltb_spec 2 m).
    - destruct (Z.ltb_spec (m - 3) 10); lia.
    - destruct (Z.ltb_spec (m + 9) 10); lia. }
  pose (c := yoe / 100). pose (q := (yoe - 100 * c) / 4). pose (a := yoe - 100 * c - 4 * q).
  assert (Hcqa : 0 <= c <= 3 /\ 0 <= q <= 24 /\ 0 <= a <= 3 /\ yoe = 100 * c + 4 * q + a)
    by (subst a q c; Z.div_mod_to_equations; lia).
  destruct Hcqa as (Hc & Hq & Ha & Eyoe). clearbody c q a.
  set (doy := (153 * mp + 2) / 5 + d - 1).
  assert (Hdoy : 0 <= doy <= 365 /\ (doy = 365 -> a = 3 /\ (q = 24 -> c = 3)) /\
                 (5 * doy + 2) / 153 = mp).
  { destruct (Z.eq_dec m 2) as [-> | Hne].
    - assert (Emp : mp = 11) by reflexivity. clearbody mp. subst mp.
      unfold DaysInMonth in Hd. change (2 =? 2) with true in Hd. cbv iota in Hd.
      assert (EY : y = 100 * c + 4 * q + a + era * 400 + 1).
      { subst Y. change (2 <=? 2) with true in yoe, era. cbv iota in *.
        subst yoe. lia. }
      destruct (InLeapYear y) eqn:L.
      + rewrite EY in L. pose proof (InLeapYear_parts c q a era Hc Hq Ha L) as HL.
        subst doy. split; [Z.div_mod_to_equations; lia|].
        split; [intros _; exact HL | Z.div_mod_to_equations; lia].
      + subst doy. split; [Z.div_mod_to_equations; lia|].
        split; [intros E; exfalso; revert E; Z.div_mod_to_equations; lia
               | Z.div_mod_to_equations; lia].
    - pose proof (DaysInMonth_month_start y m Hm Hne) as Hs. cbv zeta in Hs.
      fold mp in Hs.
      assert (Hlt : doy < (153 * (mp + 1) + 2) / 5) by (subst doy; lia).
      assert (Hmp10 : mp <= 10) by (destruct Hmp as (? & ? & ?); subst mp;
        destruct (Z.ltb_spec 2 m); lia).
      split; [|split].
      + subst doy. clear Hs. revert Hlt. Z.div_mod_to_equations. lia.
      + intros E. exfalso. revert Hlt. rewrite E. Z.div_mod_to_equations. lia.
      + apply month_of_day_of_year; [lia | lia | exact Hlt]. }
  destruct Hdoy as (Hdoy & Hleap & Emp).
  assert (Edoe : yoe * 365 + yoe / 4 - yoe / 100 + doy
                 = 36524 * c + 1461 * q + 365 * a + doy)
    by (rewrite Eyoe; Z.div_mod_to_equations; lia).
  rewrite Edoe.
  pose proof (year_of_era_formula c q a doy Hc Hq Ha Hdoy Hleap) as Hf.
  cbv zeta in Hf.
  unfold civil_from_days.
  replace (era * 146097 + (36524 * c + 1461 * q + 365 * a + doy) - 719468 + 719468)
    with (era * 146097 + (36524 * c + 1461 * q + 365 * a + doy)) by lia.
  replace ((era * 146097 + (36524 * c + 1461 * q + 365 * a + doy)) / 146097)
    with era by (Z.div_mod_to_equations; lia).
  replace (era * 146097 + (36524 * c + 1461 * q + 365 * a + doy) - era * 146097)
    with (36524 * c + 1461 * q + 365 * a + doy) by lia.
  rewrite Hf.
  replace (36524 * c + 1461 * q + 365 * a + doy
           - (365 * (100 * c + 4 * q + a) + (100 * c + 4 * q + a) / 4
              - (100 * c + 4 * q + a) / 100)) with doy
    by (Z.div_mod_to_equations; lia).
  rewrite Emp. destruct Hmp as (Hmp & Hm2 & Em). rewrite <- Em.
  assert (Ed : doy - (153 * mp + 2) / 5 + 1 = d) by (subst doy; lia).
  rewrite Ed. f_equal. f_equal.
  rewrite <- Eyoe. subst yoe Y.
  destruct (Z.leb_spec m 2); lia.
Qed.

Lemma digit_char_value (c : ascii) (v : Z) :
  JS.digit_value c = Some v -> JS.digit_char v = c.
Proof.
  unfold JS.digit_value, JS.digit_char.
  destruct (Z.leb_spec 48 (Z.of_nat (nat_of_ascii c)));
    destruct (Z.leb_spec (Z.of_nat (nat_of_ascii c)) 57); cbn [andb];
    intros E; inversion E.
  replace (48 + (Z.of_nat (nat_of_ascii c) - 48)) with (Z.of_nat (nat_of_ascii c)) by lia.
  rewrite Nat2Z.id. apply ascii_nat_embedding.
Qed.

Lemma digits_fixed_of_value_4 (c1 c2 c3 c4 : ascii) (y : Z) :
  JS.digits_value 0 (String c1 (String c2 (String c3 (String c4 "")))) = Some y ->
  JS.digits_fixed 4 y = String c1 (String c2 (String c3 (String c4 ""))).
Proof.
  cbn [JS.digits_value].
  destruct (JS.digit_value c1) as [v1|] eqn:E1; [|discriminate].
  destruct (JS.digit_value c2) as [v2|] eqn:E2; [|discriminate].
  destruct (JS.digit_value c3) as [v3|] eqn:E3; [|discriminate].
  destruct (JS.digit_value c4) as [v4|] eqn:E4; [|discriminate].
  intros [= <-]. rewrite digits_fixed_4.
  pose proof (digit_value_range _ _ E1). pose proof (digit_value_range _ _ E2).
  pose proof (digit_value_range _ _ E3). pose proof (digit_value_range _ _ E4).
  apply digit_char_value in E1, E2, E3, E4.
  rewrite <- E1, <- E2, <- E3, <- E4.
  repeat f_equal; Z.div_mod_to_equations; lia.
Qed.

Lemma digits_fixed_of_value_2 (c1 c2 : ascii) (m : Z) :
  JS.digits_value 0 (String c1 (String c2 "")) = Some m ->
  JS.digits_fixed 2 m = String c1 (String c2 "").
Proof.
  cbn [JS.digits_value].
  destruct (JS.digit_value c1) as [v1|] eqn:E1; [|discriminate].
  destruct (JS.digit_value c2) as [v2|] eqn:E2; [|discriminate].
  intros [= <-]. rewrite digits_fixed_2.
  pose proof (digit_value_range _ _ E1). pose proof (digit_value_range _ _ E2).
  apply digit_char_value in E1, E2.
  rewrite <- E1, <- E2.
  repeat f_equal; Z.div_mod_to_equations; lia.
Qed.

(** The text of a date key, taken apart: year, month and day as [new Date]
    reads them. *)
Lemma date_key_parts (n : Z) (key : string) :
  date_key n key ->
  exists y m d,
    0 <= y <= 9999 /\ 1 <= m <= 12 /\ 1 <= d <= DaysInMonth y m /\
    n = days_from_civil y m d /\ civil_from_days n = (y, m, d) /\
    key = JS.digits_fixed 4 y ++ "-" ++ JS.digits_fixed 2 m ++ "-" ++ JS.digits_fixed 2 d.
Proof.
  unfold date_key, of_string, parse. intros H.
  rewrite <- (string_of_list_ascii_of_string key).
  destruct (list_ascii_of_string key)
    as [|y1 [|y2 [|y3 [|y4 [|s1 [|m1 [|m2 [|s2 [|d1 [|d2 [|x l]]]]]]]]]]];
    try discriminate.
  destruct (Ascii.eqb s1 "-") eqn:Es1; [|discriminate].
  destruct (Ascii.eqb s2 "-") eqn:Es2; [|discriminate].
  apply Ascii.eqb_eq in Es1, Es2. subst s1 s2. cbn [andb] in H.
  cbn [string_of_list_ascii] in *.
  destruct (JS.digits_value 0 (String y1 _)) as [y|] eqn:Ey; [|discriminate].
  destruct (JS.digits_value 0 (String m1 _)) as [m|] eqn:Em; [|discriminate].
  destruct (JS.digits_value 0 (String d1 _)) as [d|] eqn:Ed; [|discriminate].
  pose proof (digits_value_range _ _ _ Ey) as Hy. cbn in Hy.
  destruct (Z.leb_spec 1 m); destruct (Z.leb_spec m 12);
    destruct (Z.leb_spec 1 d); destruct (Z.leb_spec d (DaysInMonth y m));
    cbn [andb] in H; try discriminate.
  inversion H as [E]. exists y, m, d.
  assert (En : n = days_from_civil y m d) by (unfold MakeDate, msPerDay in E; lia).
  split; [lia|]. split; [lia|]. split; [lia|]. split; [exact En|].
  split; [rewrite En; apply civil_days_inverse; lia|].
  rewrite (digits_fixed_of_value_4 _ _ _ _ _ Ey), (digits_fixed_of_value_2 _ _ _ Em),
    (digits_fixed_of_value_2 _ _ _ Ed).
  reflexivity.
Qed.

Lemma substring_month_key (y m : Z) (rest : string) :
  String.substring 0 7 (JS.digits_fixed 4 y ++ "-" ++ JS.digits_fixed 2 m ++ rest)
  = month_key y m.
Proof.
  unfold month_key. rewrite digits_fixed_4, digits_fixed_2.
  rewrite !append_String, !append_Empty. destruct rest; reflexivity.
Qed.

Lemma iso_date_civil (n y m d : Z) :
  civil_from_days n = (y, m, d) -> 0 <= y <= 9999 ->
  iso_date n = JS.digits_fixed 4 y ++ "-" ++ JS.digits_fixed 2 m ++ "-" ++ JS.digits_fixed 2 d.
Proof. intros E Hy. unfold iso_date. rewrite E. now rewrite iso_year_4. Qed.

(** [getStartOfMonth] of a date key is the key of the month of the local
    date: of the date at or east of UTC, of the day before west of it. *)
Lemma getStartOfMonth_local (tz n : Z) (key : string) (y m d : Z) :
  tz_range tz -> date_key n key -> first_day + 1 <= n ->
  civil_from_days (if tz <? 0 then n - 1 else n) = (y, m, d) ->
  Utility.getStartOfMonth tz key = JS.Ok (month_key y m).
Proof.
  unfold tz_range. intros Htz Hkey Hlo EL.
  pose proof (date_key_range n key Hkey) as Hn.
  set (L := if tz <? 0 then n - 1 else n) in *.
  assert (HL : first_day <= L <= last_day /\ 0 <= n - L <= 1)
    by (subst L; destruct (Z.ltb_spec tz 0); lia).
  destruct HL as (HL & Hdiff).
  pose proof (civil_from_days_spec L) as Hspec.
  pose proof (civil_from_days_year L HL) as Hyear.
  rewrite EL in Hspec, Hyear. cbn [fst] in Hyear.
  destruct Hspec as (Hm & Hd & Edays).
  assert (Hd31 : 28 <= DaysInMonth y m <= 31).
  { unfold DaysInMonth.
    destruct (m =? 2); [destruct (InLeapYear y)|destruct (_ || _)]; lia. }
  unfold Utility.getStartOfMonth. unfold date_key in Hkey. rewrite Hkey, setDate_from.
  assert (Eday : Day (LocalTime tz (MakeDate n 0)) = L).
  { subst L. unfold Day, LocalTime, MakeDate, msPerDay in *.
    destruct (Z.ltb_spec tz 0); Z.div_mod_to_equations; lia. }
  rewrite Eday, EL. cbn [snd].
  rewrite TimeClip_small
    by (unfold MakeDate; replace (n * msPerDay + 0 + (1 - d) * msPerDay)
          with ((n + (1 - d)) * msPerDay + 0) by lia;
        apply day_time_bound; unfold msPerDay; lia).
  cbn [toISOString_date JS.bind]. f_equal.
  assert (E2 : Day (MakeDate n 0 + (1 - d) * msPerDay)
               = days_from_civil y m (1 + (n - L))).
  { rewrite (days_from_civil_day y m d), Edays.
    unfold Day, MakeDate, msPerDay. Z.div_mod_to_equations. lia. }
  rewrite E2.
  rewrite (iso_date_civil _ y m (1 + (n - L))); [apply substring_month_key| |exact Hyear].
  apply civil_days_inverse; lia.
Qed.



Lemma month_key_inj (y m y' m' : Z) :
  0 <= y <= 9999 -> 0 <= m <= 99 -> 0 <= y' <= 9999 -> 0 <= m' <= 99 ->
  month_key y m = month_key y' m' -> y = y' /\ m = m'.
Proof.
  intros Hy Hm Hy' Hm' E.
  pose proof (Number_digits_4 y Hy) as Ny. pose proof (Number_digits_4 y' Hy') as Ny'.
  pose proof (Number_digits_2 m Hm) as Nm. pose proof (Number_digits_2 m' Hm') as Nm'.
  unfold month_key in E. rewrite !digits_fixed_4, !digits_fixed_2 in *.
  rewrite !append_String, !append_Empty in E.
  injection E as E1 E2 E3 E4 E5 E6.
  rewrite E1, E2, E3, E4 in Ny. rewrite E5, E6 in Nm.
  split; congruence.
Qed.

(** A month key is a prefix of a date key exactly when the date is a
    day of that month. *)
Lemma prefix_month_key (y m n : Z) (key : string) :
  0 <= y <= 9999 -> 1 <= m <= 12 -> date_key n key ->
  String.prefix (month_key y m) key = true <->
  fst (fst (civil_from_days n)) = y /\ snd (fst (civil_from_days n)) = m.
Proof.
  intros Hy Hm Hkey.
  destruct (date_key_parts n key Hkey) as (y' & m' & d' & Hy' & Hm' & _ & _ & Ec & ->).
  rewrite Ec. cbn [fst snd]. rewrite String.prefix_correct.
  assert (Hlen : String.length (month_key y m) = 7%nat)
    by (unfold month_key; rewrite digits_fixed_4, digits_fixed_2; reflexivity).
  rewrite Hlen, substring_month_key. split.
  - intros E. symmetry in E. apply month_key_inj in E; try lia.
  - intros [-> ->]. reflexivity.
Qed.

(** X14. [getExpensesByMonth] of the key of month [m] of year [y] holds
    exactly the records of the store whose date key names a day of that
    month. *)
Theorem getExpensesByMonth_month (expenses : list Expense) (y m : Z)
  (r : Expense) (n : Z) :
  0 <= y <= 9999 -> 1 <= m <= 12 -> date_key n (date r) ->
  (In r (ExpenseManager.getExpensesByMonth expenses (month_key y m)) <->
   In r expenses /\
   fst (fst (civil_from_days n)) = y /\ snd (fst (civil_from_days n)) = m).
Proof.
  intros Hy Hm Hkey. unfold ExpenseManager.getExpensesByMonth.
  rewrite filter_In. apply and_iff_compat_l.
  now apply prefix_month_key.
Qed.

Lemma getExpensesByMonth_month_witness :
  0 <= 2025 <= 9999 /\ 1 <= 1 <= 12 /\
  date_key 20096 (date (mkExpense "d2" 40 Transport "Bus fare" "2025-01-08")) /\
  (In (mkExpense "d2" 40 Transport "Bus fare" "2025-01-08")
      (ExpenseManager.getExpensesByMonth sample_expenses (month_key 2025 1)) <->
   In (mkExpense "d2" 40 Transport "Bus fare" "2025-01-08") sample_expenses /\
   fst (fst (civil_from_days 20096)) = 2025 /\ snd (fst (civil_from_days 20096)) = 1).
Proof.
  assert (H1 : 0 <= 2025 <= 9999) by lia.
  assert (H2 : 1 <= 1 <= 12) by lia.
  assert (H3 : date_key 20096 (date (mkExpense "d2" 40 Transport "Bus fare" "2025-01-08")))
    by (vm_compute; reflexivity).
  repeat (split; [assumption|]).
  exact (getExpensesByMonth_month sample_expenses 2025 1
           (mkExpense "d2" 40 Transport "Bus fare" "2025-01-08") 20096 H1 H2 H3).
Defined.

End MonthKeys.

(** ** The periods of the summaries *)

Section Periods.
Import Calendar JSDate InsightsEngine.

(** The records of the week that starts on day [dw]. *)
Lemma in_week_iff (tz : Z) (expenses : list Expense) (w : string) (dw : Z)
  (r : Expense) :
  tz_range tz -> date_key dw w ->
  In r (ExpenseManager.getExpensesByWeek tz expenses w) <->
  In r expenses /\ exists dr, date_key dr (date r) /\ dw <= dr <= dw + 6.
Proof.
  intros Htz Hw. pose proof (date_key_range dw w Hw) as Hdw.
  unfold ExpenseManager.getExpensesByWeek. rewrite filter_In.
  apply and_iff_compat_l. unfold date_key in Hw. rewrite Hw.
  destruct (endOfWeek_value tz dw Htz Hdw) as (e & -> & He).
  destruct (of_string (date r)) as [vr|] eqn:Er.
  - destruct (of_string_Some _ vr Er) as (dr & -> & Hdr).
    cbn [JS.num_geb JS.num_leb]. rewrite andb_true_iff, !Z.leb_le, He. split.
    + intros [H1 H2]. exists dr. split; [exact Er|].
      unfold MakeDate, msPerDay in H1. lia.
    + intros (dr' & H1 & H2). rewrite (date_key_unique dr dr' _ Er H1).
      unfold MakeDate, msPerDay. lia.
  - cbn [JS.num_geb]. split; [discriminate|].
    intros (dr' & H & _). unfold date_key in H. congruence.
Qed.



(** X16. Whether a record dated today is among the records of the current
    week depends on the host: always at UTC, on every day but Sunday east
    of UTC, on every day but Monday west of UTC. *)
Theorem today_in_current_week (tz : Z) (expenses : list Expense)
  (today : string) (n : Z) (r : Expense) :
  tz_range tz -> date_key n today -> first_day + 8 <= n ->
  In r expenses -> date r = today ->
  exists weekly,
    getWeeklySummary tz expenses today = JS.Ok weekly /\
    (In r (ExpenseManager.getExpensesByWeek tz expenses (currentWeekKey weekly)) <->
     tz = 0 \/ (0 < tz /\ WeekDay (MakeDate n 0) <> 0)
     \/ (tz < 0 /\ WeekDay (MakeDate n 0) <> 1)).
Proof.
  intros Htz Hkey Hlo Hin Hdate. pose proof (date_key_range n today Hkey) as Hn.
  pose proof (week_start_range tz n Htz) as Hw.
  destruct (generateInsights_runs tz expenses ∅ today n Htz Hkey Hlo)
    as (weekly & _ & Hs & _ & _ & Ec & _).
  exists weekly. split; [exact Hs|].
  assert (Kc : date_key (week_start tz n) (currentWeekKey weekly))
    by (rewrite Ec; apply parse_iso_date; lia).
  rewrite (in_week_iff tz expenses _ _ r Htz Kc).
  assert (Hwd : WeekDay (MakeDate n 0) = (n + 4) mod 7)
    by (unfold WeekDay, Day, MakeDate, msPerDay; f_equal; Z.div_mod_to_equations; lia).
  rewrite Hwd. split.
  - intros (_ & dr & K & B). rewrite Hdate in K.
    rewrite <- (date_key_unique n dr _ Hkey K) in B. revert B.
    unfold week_start, monday_on_or_before.
    destruct (Z.ltb_spec tz 0); destruct (Z.ltb_spec 0 tz); try lia;
      Z.div_mod_to_equations; lia.
  - intros H. split; [exact Hin|]. exists n. split; [now rewrite Hdate|].
    revert H. unfold week_start, monday_on_or_before.
    destruct (Z.ltb_spec tz 0); destruct (Z.ltb_spec 0 tz); try lia;
      Z.div_mod_to_equations; lia.
Qed.

Lemma today_in_current_week_witness :
  tz_range IST /\ date_key 20096 "2025-01-08" /\ first_day + 8 <= 20096 /\
  In (mkExpense "d2" 40 Transport "Bus fare" "2025-01-08") sample_expenses /\
  date (mkExpense "d2" 40 Transport "Bus fare" "2025-01-08") = "2025-01-08" /\
  exists weekly,
    getWeeklySummary IST sample_expenses "2025-01-08" = JS.Ok weekly /\
    (In (mkExpense "d2" 40 Transport "Bus fare" "2025-01-08")
        (ExpenseManager.getExpensesByWeek IST sample_expenses (currentWeekKey weekly)) <->
     IST = 0 \/ (0 < IST /\ WeekDay (MakeDate 20096 0) <> 0)
     \/ (IST < 0 /\ WeekDay (MakeDate 20096 0) <> 1)).
Proof.
  assert (H1 : tz_range IST) by (unfold tz_range, IST, msPerDay; lia).
  assert (H2 : date_key 20096 "2025-01-08") by (vm_compute; reflexivity).
  assert (H3 : first_day + 8 <= 20096) by (unfold first_day; lia).
  assert (H4 : In (mkExpense "d2" 40 Transport "Bus fare" "2025-01-08") sample_expenses)
    by (cbn; tauto).
  assert (H5 : date (mkExpense "d2" 40 Transport "Bus fare" "2025-01-08") = "2025-01-08")
    by reflexivity.
  repeat (split; [assumption|]).
  exact (today_in_current_week IST sample_expenses "2025-01-08" 20096
           (mkExpense "d2" 40 Transport "Bus fare" "2025-01-08") H1 H2 H3 H4 H5).
Defined.

End Periods.

(** ** The months of the monthly summary *)

Section MonthSummary.
Import Calendar JSDate InsightsEngine.

(** [getMonthlySummary] once the month key of today is known. *)
Lemma getMonthlySummary_value (tz : Z) (expenses : list Expense)
  (budgets : BudgetManager.Budgets) (today mk : string) :
  Utility.getStartOfMonth tz today = JS.Ok mk ->
  getMonthlySummary tz expenses budgets today =
  JS.Ok {| currentMonthKey := mk;
           prevMonthKey := Utility.getPreviousMonth mk;
           month_current := calculateTotals (ExpenseManager.getExpensesByMonth expenses mk);
           month_prev :=
             calculateTotals
               (ExpenseManager.getExpensesByMonth expenses (Utility.getPreviousMonth mk));
           budget := BudgetManager.getBudget budgets "monthly" mk |}.
Proof.
  intros E. unfold getMonthlySummary, BudgetManager.getCurrentMonthlyBudget.
  rewrite E. reflexivity.
Qed.

(** The day after the first of a month is in the same month, and the day
    before the first is not. *)
Lemma civil_day_before (n y m d : Z) :
  civil_from_days n = (y, m, d) ->
  (d <> 1 -> civil_from_days (n - 1) = (y, m, d - 1)) /\
  (d = 1 -> forall d', civil_from_days (n - 1) <> (y, m, d')).
Proof.
  intros E. pose proof (civil_from_days_spec n) as H. rewrite E in H.
  destruct H as (Hm & Hd & En). split.
  - intros Hd1. rewrite <- En.
    replace (days_from_civil y m d - 1) with (days_from_civil y m (d - 1))
      by (rewrite (days_from_civil_day y m d); lia).
    apply civil_days_inverse; lia.
  - intros -> d' E'. pose proof (civil_from_days_spec (n - 1)) as H. rewrite E' in H.
    destruct H as (_ & Hd' & En').
    rewrite (days_from_civil_day y m 1) in En'. lia.
Qed.





End MonthSummary.

(** ** Category totals *)

Section CategoryTotals.
Import InsightsEngine.

Lemma obj_get_obj_set (o : CategoryTotals) (k : Category) (v : Q) (c : Category) :
  obj_get (obj_set o k v) c = if Category_eqb k c then Some v else obj_get o c.
Proof.
  induction o as [|[k' v'] r IH]; cbn [obj_set obj_get].
  - reflexivity.
  - destruct (Category_eqb k' k) eqn:E; cbn [obj_get].
    + apply Category_eqb_eq in E. subst k'. now destruct (Category_eqb k c).
    + rewrite IH. destruct (Category_eqb k' c) eqn:E'; [|reflexivity].
      apply Category_eqb_eq in E'. subst k'.
      apply Category_eqb_neq in E.
      assert (E2 : Category_eqb k c = false) by (apply Category_eqb_neq; congruence).
      now rewrite E2.
Qed.

Lemma or_zero_value (x : option Q) :
  (JSQ.or_zero x == match x with Some v => v | None => 0 end)%Q.
Proof. destruct x; [apply or_zero_Some | reflexivity]. Qed.

Lemma fold_categories_get (rs : list Expense) (o : CategoryTotals) (c : Category) :
  (JSQ.or_zero (obj_get (fold_left add_to_category rs o) c)
   == JSQ.or_zero (obj_get o c)
      + sum_amounts (filter (fun e => Category_eqb (category e) c) rs))%Q.
Proof.
  revert o. induction rs as [|e rs IH]; intro o; cbn [fold_left filter].
  - cbn [sum_amounts]. ring.
  - rewrite IH. unfold add_to_category. rewrite obj_get_obj_set.
    destruct (Category_eqb (category e) c) eqn:E.
    + apply Category_eqb_eq in E. rewrite E. cbn [sum_amounts].
      rewrite or_zero_Some. ring.
    + ring.
Qed.

Lemma category_absent (rs : list Expense) (c : Category) :
  obj_get (categoryTotals (calculateTotals rs)) c = None <->
  filter (fun e => Category_eqb (category e) c) rs = [].
Proof.
  rewrite obj_get_None. unfold calculateTotals. cbn [categoryTotals].
  rewrite fold_categories_keys. cbn [Object_keys map In]. split.
  - intros H. destruct (filter _ rs) as [|e l] eqn:E; [reflexivity|].
    exfalso. apply H. right. exists e.
    assert (Hin : In e (filter (fun e => Category_eqb (category e) c) rs))
      by (rewrite E; now left).
    apply filter_In in Hin. destruct Hin as [H1 H2].
    apply Category_eqb_eq in H2. now split.
  - intros E [[] | (e & H1 & H2)].
    assert (Hin : In e (filter (fun e => Category_eqb (category e) c) rs))
      by (apply filter_In; split; [exact H1 | now apply Category_eqb_eq]).
    rewrite E in Hin. exact Hin.
Qed.


Lemma sum_amounts_perm (rs rs' : list Expense) :
  Permutation rs rs' -> (sum_amounts rs == sum_amounts rs')%Q.
Proof.
  induction 1 as [|x l l' _ IH|x y l|l l' l'' _ IH1 _ IH2]; cbn [sum_amounts].
  - reflexivity.
  - rewrite IH. reflexivity.
  - ring.
  - now rewrite IH1.
Qed.

Lemma filter_perm {A : Type} (f : A -> bool) (l l' : list A) :
  Permutation l l' -> Permutation (filter f l) (filter f l').
Proof.
  induction 1 as [|x l l' _ IH|x y l|l l' l'' _ IH1 _ IH2]; cbn [filter].
  - constructor.
  - destruct (f x); [now constructor | exact IH].
  - destruct (f x), (f y); try reflexivity. constructor.
  - now transitivity (filter f l').
Qed.




End CategoryTotals.

(** ** The suggestion, the empty store and the budget displays *)

Section Displays.
Import Calendar JSDate InsightsEngine UIManager.

(** X22. [generateInsights] returns the savings suggestion for a category
    exactly when that category is Entertainment or Shopping and is the one
    the observation names. *)
Theorem suggestion_rule (tz : Z) (expenses : list Expense)
  (budgets : BudgetManager.Budgets) (today : string) (n : Z) :
  tz_range tz -> date_key n today -> first_day + 8 <= n ->
  exists out,
    generateInsights tz expenses budgets today = JS.Ok out /\
    forall c, In (Suggestion c) out <->
              (c = Entertainment \/ c = Shopping) /\ exists a, In (Observation c a) out.
Proof.
  intros Htz Hkey Hlo.
  destruct (generateInsights_runs tz expenses budgets today n Htz Hkey Hlo)
    as (weekly & monthly & _ & _ & Hg & _).
  exists (insightsOf weekly monthly). split; [exact Hg|]. intros c.
  destruct (insightsOf_by_rule weekly monthly) as (_ & _ & Ho & Hs).
  assert (S : In (Suggestion c) (insightsOf weekly monthly) <->
              In (Suggestion c) (topCategoryInsight monthly)).
  { transitivity (In (Suggestion c) (filter is_suggestion (insightsOf weekly monthly))).
    - rewrite filter_In. cbn [is_suggestion]. tauto.
    - rewrite Hs, filter_In. cbn [is_suggestion]. tauto. }
  assert (O : forall a, In (Observation c a) (insightsOf weekly monthly) <->
                        In (Observation c a) (topCategoryInsight monthly)).
  { intros a.
    transitivity (In (Observation c a) (filter is_observation (insightsOf weekly monthly))).
    - rewrite filter_In. cbn [is_observation]. tauto.
    - rewrite Ho, filter_In. cbn [is_observation]. tauto. }
  rewrite S. setoid_rewrite O. clear S O Ho Hs Hg.
  unfold topCategoryInsight.
  destruct (0 <? _); [|cbn [In]; split; [tauto | intros (_ & a & [])]].
  destruct (reduce_top _ _) as [t|]; [|cbn [In]; split; [tauto | intros (_ & a & [])]].
  destruct (Category_eqb t Entertainment || Category_eqb t Shopping) eqn:E; cbn [In].
  - apply orb_true_iff in E. rewrite !Category_eqb_eq in E. split.
    + intros [H | [H | []]]; [discriminate H|]. inversion H; subst c.
      split; [exact E|]. eexists. left. reflexivity.
    + intros (_ & a & [H | [H | []]]); [|discriminate H]. inversion H; subst. tauto.
  - apply orb_false_iff in E. rewrite !Category_eqb_neq in E. split.
    + intros [H | []]. discriminate H.
    + intros (Hc & a & [H | []]). inversion H; subst. tauto.
Qed.

Lemma suggestion_rule_witness :
  tz_range IST /\ date_key 20096 "2025-01-08" /\ first_day + 8 <= 20096 /\
  exists out,
    generateInsights IST sample_expenses sample_budgets "2025-01-08" = JS.Ok out /\
    forall c, In (Suggestion c) out <->
              (c = Entertainment \/ c = Shopping) /\ exists a, In (Observation c a) out.
Proof.
  assert (H1 : tz_range IST) by (unfold tz_range, IST, msPerDay; lia).
  assert (H2 : date_key 20096 "2025-01-08") by (vm_compute; reflexivity).
  assert (H3 : first_day + 8 <= 20096) by (unfold first_day; lia).
  repeat (split; [assumption|]).
  exact (suggestion_rule IST sample_expenses sample_budgets "2025-01-08" 20096 H1 H2 H3).
Defined.

Lemma toFixed0_zero (x : Q) : (x == 0)%Q -> JSQ.toFixed0 x = 0.
Proof.
  intros E. unfold JSQ.toFixed0.
  assert (L : JSQ.ltb x 0 = false) by (apply ltb_false; lra).
  rewrite L.
  assert (E2 : (x + (1 # 2) == 1 # 2)%Q) by lra.
  rewrite (Qfloor_comp _ _ E2). reflexivity.
Qed.

(** X23. With no expense recorded [generateInsights] returns one message,
    the budget one: the tip to set a budget when none is set for the
    month, otherwise "Excellent", with 0% used and the whole budget
    remaining. *)
Theorem generateInsights_empty_store (tz : Z) (budgets : BudgetManager.Budgets)
  (today : string) (n : Z) :
  tz_range tz -> date_key n today -> first_day + 8 <= n ->
  exists mk out,
    Utility.getStartOfMonth tz today = JS.Ok mk /\
    generateInsights tz [] budgets today = JS.Ok out /\
    let b := BudgetManager.getBudget budgets "monthly" mk in
    ((b <= 0)%Q -> out = [SetBudgetTip]) /\
    ((0 < b)%Q -> exists rest, (rest == b)%Q /\ out = [Excellent 0 rest]).
Proof.
  intros Htz Hkey Hlo.
  destruct (generateInsights_runs tz [] budgets today n Htz Hkey Hlo)
    as (weekly & monthly & _ & _ & Hg & _ & _ & Wc & Wl & Hmk & Mc & Hb).
  exists (currentMonthKey monthly), (insightsOf weekly monthly).
  split; [exact Hmk|]. split; [exact Hg|]. cbv zeta. rewrite <- Hb.
  assert (Tw : total (week_current weekly) = 0%Q) by (rewrite Wc; reflexivity).
  assert (Tm : total (month_current monthly) = 0%Q) by (rewrite Mc; reflexivity).
  assert (Cm : categoryTotals (month_current monthly) = []) by (rewrite Mc; reflexivity).
  destruct (weeklyInsight_cases weekly) as (_ & _ & _ & _ & W & _).
  destruct (topCategoryInsight_cases monthly) as (T & _).
  destruct (budgetInsight_cases monthly) as (msg & B & _ & Bpos & Bzero).
  unfold insightsOf. rewrite W, (T Cm), B by (rewrite Tw; lra). cbn [app].
  rewrite Tm in Bpos. split.
  - intros Hb0. now rewrite (Bzero Hb0).
  - intros Hb0. destruct (Bpos Hb0) as (Hex & _).
    assert (K : (0 / budget monthly * 100 == 0)%Q) by (unfold Qdiv; ring).
    rewrite Hex by (split; lra). rewrite (toFixed0_zero _ K).
    eexists. split; [|reflexivity]. ring.
Qed.

Lemma generateInsights_empty_store_witness :
  tz_range IST /\ date_key 20096 "2025-01-08" /\ first_day + 8 <= 20096 /\
  exists mk out,
    Utility.getStartOfMonth IST "2025-01-08" = JS.Ok mk /\
    generateInsights IST [] sample_budgets "2025-01-08" = JS.Ok out /\
    let b := BudgetManager.getBudget sample_budgets "monthly" mk in
    ((b <= 0)%Q -> out = [SetBudgetTip]) /\
    ((0 < b)%Q -> exists rest, (rest == b)%Q /\ out = [Excellent 0 rest]).
Proof.
  assert (H1 : tz_range IST) by (unfold tz_range, IST, msPerDay; lia).
  assert (H2 : date_key 20096 "2025-01-08") by (vm_compute; reflexivity).
  assert (H3 : first_day + 8 <= 20096) by (unfold first_day; lia).
  repeat (split; [assumption|]).
  exact (generateInsights_empty_store IST sample_budgets "2025-01-08" 20096 H1 H2 H3).
Defined.

(** The values of the budget view and the monthly summary they are
    computed from. *)
Lemma budget_displays (tz : Z) (expenses : list Expense)
  (budgets : BudgetManager.Budgets) (today : string) (n : Z) :
  tz_range tz -> date_key n today ->
  exists view monthly,
    renderBudgetView tz expenses budgets today = JS.Ok view /\
    getMonthlySummary tz expenses budgets today = JS.Ok monthly /\
    month_current monthly
    = calculateTotals (ExpenseManager.getExpensesByMonth expenses (currentMonthKey monthly)) /\
    currentBudget view = budget monthly /\
    monthlyTotal view = total (month_current monthly) /\
    percentUsed view
    = (if JSQ.gtb (budget monthly) 0
       then total (month_current monthly) / budget monthly * 100 else 0)%Q /\
    isOverBudget view = JSQ.ltb (budget monthly - total (month_current monthly)) 0 /\
    progressColor view
    = (if isOverBudget view then "bg-red-500"
       else if JSQ.gtb (percentUsed view) 80 then "bg-orange-500" else "bg-green-500") /\
    progressWidth view = JSQ.toFixed0 (JSQ.min 100 (percentUsed view)) /\
    statusText view = (if isOverBudget view then "OVER BUDGET" else "ON TRACK").
Proof.
  intros Htz Hkey. pose proof (date_key_range n today Hkey) as Hn.
  destruct (getStartOfMonth_key tz n today Htz Hn Hkey) as [mk Hmk].
  eexists. eexists.
  split.
  { unfold renderBudgetView, BudgetManager.getCurrentMonthlyBudget.
    rewrite Hmk. cbn [JS.bind]. reflexivity. }
  split; [apply (getMonthlySummary_value _ _ _ _ _ Hmk)|].
  cbn [month_current currentMonthKey budget currentBudget monthlyTotal percentUsed
       isOverBudget progressColor progressWidth statusText].
  repeat split.
Qed.

Lemma leb_true (a b : Q) : JSQ.leb a b = true <-> (a <= b)%Q.
Proof. apply Qle_bool_iff. Qed.

Lemma leb_false (a b : Q) : JSQ.leb a b = false <-> (b < a)%Q.
Proof. apply (geb_false b a). Qed.

Ltac split_leb :=
  repeat match goal with
    | |- context [JSQ.leb ?a ?b] =>
        let E := fresh "E" in
        destruct (JSQ.leb a b) eqn:E;
        [apply leb_true in E | apply leb_false in E]
    end.

Ltac close_cases :=
  repeat split; intros;
  repeat match goal with
    | H : exists _, _ |- _ => destruct H
    | H : _ /\ _ |- _ => destruct H
    end;
  try discriminate; try reflexivity; try lra; try (exfalso; lra);
  try (eexists; reflexivity); try (eexists; eexists; reflexivity).

(** X24. With a budget set for the month the three displays agree on
    being over budget: the budget view says OVER BUDGET and colours the
    bar red, the budget insight is the critical warning, and the goals
    review says Missed, each exactly when the month's total exceeds the
    budget; otherwise the goals review says Achieved. *)
Theorem budget_displays_agree (tz : Z) (expenses : list Expense)
  (budgets : BudgetManager.Budgets) (today : string) (n : Z) :
  tz_range tz -> date_key n today ->
  exists view monthly msg goal,
    renderBudgetView tz expenses budgets today = JS.Ok view /\
    getMonthlySummary tz expenses budgets today = JS.Ok monthly /\
    budgetInsight monthly = [msg] /\
    renderGoalsReview monthly = [goal] /\
    currentBudget view = budget monthly /\
    monthlyTotal view = total (month_current monthly) /\
    ((0 < currentBudget view)%Q ->
     let over := (currentBudget view < monthlyTotal view)%Q in
     (statusText view = "OVER BUDGET" <-> over) /\
     (progressColor view = "bg-red-500" <-> over) /\
     ((exists x, msg = CriticalOverBudget x) <-> over) /\
     ((exists b t, goal = BudgetGoal "Missed" "bg-red-500" b t) <-> over) /\
     ((exists b t, goal = BudgetGoal "Achieved" "bg-green-500" b t) <-> ~ over)).
Proof.
  intros Htz Hkey.
  destruct (budget_displays tz expenses budgets today n Htz Hkey)
    as (view & monthly & Hv & Hm & _ & Eb & Et & Ep & Eo & Ec & _ & Es).
  exists view, monthly. rewrite Es, Ec, Eo, Ep, Eb, Et.
  unfold budgetInsight, renderGoalsReview.
  set (b := budget monthly). set (t := total (month_current monthly)).
  set (pct := (t / b * 100)%Q).
  split_tests; split_leb; try (exfalso; lra);
    eexists; eexists; (split; [exact Hv|]); (split; [exact Hm|]);
    (split; [reflexivity|]); (split; [reflexivity|]);
    (split; [reflexivity|]); (split; [reflexivity|]); cbv zeta; close_cases.
Qed.

Lemma budget_displays_agree_witness :
  tz_range IST /\ date_key 20096 "2025-01-08" /\
  exists view monthly msg goal,
    renderBudgetView IST sample_expenses sample_budgets "2025-01-08" = JS.Ok view /\
    getMonthlySummary IST sample_expenses sample_budgets "2025-01-08" = JS.Ok monthly /\
    budgetInsight monthly = [msg] /\
    renderGoalsReview monthly = [goal] /\
    currentBudget view = budget monthly /\
    monthlyTotal view = total (month_current monthly) /\
    ((0 < currentBudget view)%Q ->
     let over := (currentBudget view < monthlyTotal view)%Q in
     (statusText view = "OVER BUDGET" <-> over) /\
     (progressColor view = "bg-red-500" <-> over) /\
     ((exists x, msg = CriticalOverBudget x) <-> over) /\
     ((exists b t, goal = BudgetGoal "Missed" "bg-red-500" b t) <-> over) /\
     ((exists b t, goal = BudgetGoal "Achieved" "bg-green-500" b t) <-> ~ over)).
Proof.
  assert (H1 : tz_range IST) by (unfold tz_range, IST, msPerDay; lia).
  assert (H2 : date_key 20096 "2025-01-08") by (vm_compute; reflexivity).
  repeat (split; [assumption|]).
  exact (budget_displays_agree IST sample_expenses sample_budgets "2025-01-08" 20096 H1 H2).
Defined.

(** X25. With no budget set for the month and any spending in it, the
    budget view still says OVER BUDGET, with a red bar of width 0, while
    the budget insight is the tip to set a budget and the goals review
    the prompt to set one. *)
Theorem budget_view_without_budget (tz : Z) (expenses : list Expense)
  (budgets : BudgetManager.Budgets) (today : string) (n : Z) :
  tz_range tz -> date_key n today ->
  exists view monthly,
    renderBudgetView tz expenses budgets today = JS.Ok view /\
    getMonthlySummary tz expenses budgets today = JS.Ok monthly /\
    currentBudget view = budget monthly /\
    monthlyTotal view = total (month_current monthly) /\
    ((currentBudget view <= 0)%Q ->
     budgetInsight monthly = [SetBudgetTip] /\
     renderGoalsReview monthly = [SetBudgetPrompt] /\
     progressWidth view = 0 /\
     (statusText view = "OVER BUDGET" <-> (currentBudget view < monthlyTotal view)%Q) /\
     (progressColor view = "bg-red-500" <-> (currentBudget view < monthlyTotal view)%Q) /\
     (statusText view = "ON TRACK" <-> (monthlyTotal view <= currentBudget view)%Q)).
Proof.
  intros Htz Hkey.
  destruct (budget_displays tz expenses budgets today n Htz Hkey)
    as (view & monthly & Hv & Hm & _ & Eb & Et & Ep & Eo & Ec & Ew & Es).
  exists view, monthly. rewrite Es, Ec, Ew, Eo, Ep, Eb, Et.
  unfold budgetInsight, renderGoalsReview.
  set (b := budget monthly). set (t := total (month_current monthly)).
  split; [exact Hv|]. split; [exact Hm|]. split; [reflexivity|]. split; [reflexivity|].
  intros Hb. assert (G : JSQ.gtb b 0 = false) by now apply gtb_false.
  rewrite G. split; [reflexivity|]. split; [reflexivity|]. split; [reflexivity|].
  assert (G80 : JSQ.gtb 0 80 = false) by reflexivity. rewrite G80.
  split_tests; close_cases.
Qed.

Lemma budget_view_without_budget_witness :
  tz_range IST /\ date_key 20096 "2025-01-08" /\
  exists view monthly,
    renderBudgetView IST sample_expenses ∅ "2025-01-08" = JS.Ok view /\
    getMonthlySummary IST sample_expenses ∅ "2025-01-08" = JS.Ok monthly /\
    currentBudget view = budget monthly /\
    monthlyTotal view = total (month_current monthly) /\
    ((currentBudget view <= 0)%Q ->
     budgetInsight monthly = [SetBudgetTip] /\
     renderGoalsReview monthly = [SetBudgetPrompt] /\
     progressWidth view = 0 /\
     (statusText view = "OVER BUDGET" <-> (currentBudget view < monthlyTotal view)%Q) /\
     (progressColor view = "bg-red-500" <-> (currentBudget view < monthlyTotal view)%Q) /\
     (statusText view = "ON TRACK" <-> (monthlyTotal view <= currentBudget view)%Q)).
Proof.
  assert (H1 : tz_range IST) by (unfold tz_range, IST, msPerDay; lia).
  assert (H2 : date_key 20096 "2025-01-08") by (vm_compute; reflexivity).
  repeat (split; [assumption|]).
  exact (budget_view_without_budget IST sample_expenses ∅ "2025-01-08" 20096 H1 H2).
Defined.

Lemma percent_nonneg (t b : Q) : (0 <= t)%Q -> (0 < b)%Q -> (0 <= t / b * 100)%Q.
Proof.
  intros Ht Hb. apply Qmult_le_0_compat; [|lra].
  apply Qle_shift_div_l; [exact Hb|]. lra.
Qed.

Lemma percent_over (t b : Q) : (0 < b)%Q -> (b <= t)%Q -> (100 <= t / b * 100)%Q.
Proof.
  intros Hb Ht. assert (H : (1 <= t / b)%Q) by (apply Qle_shift_div_l; [exact Hb | lra]).
  lra.
Qed.

(** X26. When every amount of the store is positive the width of the
    progress bar is a whole number from 0 to 100, and it is 100 whenever a
    budget is set and the month's total has reached it. *)
Theorem progress_bar_width (tz : Z) (expenses : list Expense)
  (budgets : BudgetManager.Budgets) (today : string) (n : Z) :
  tz_range tz -> date_key n today ->
  Forall (fun e => (0 < amount e)%Q) expenses ->
  exists view,
    renderBudgetView tz expenses budgets today = JS.Ok view /\
    0 <= progressWidth view <= 100 /\
    ((0 < currentBudget view)%Q -> (currentBudget view <= monthlyTotal view)%Q ->
     progressWidth view = 100).
Proof.
  intros Htz Hkey Hpos.
  destruct (budget_displays tz expenses budgets today n Htz Hkey)
    as (view & monthly & Hv & Hm & Mc & Eb & Et & Ep & Eo & Ec & Ew & Es).
  exists view. split; [exact Hv|]. rewrite Ew, Ep, Eb, Et.
  assert (Ht : (0 <= total (month_current monthly))%Q).
  { rewrite Mc. apply total_nonneg. unfold ExpenseManager.getExpensesByMonth.
    now apply Forall_filter_keep. }
  set (b := budget monthly) in *. set (t := total (month_current monthly)) in *.
  assert (W100 : JSQ.toFixed0 100 = 100) by reflexivity.
  assert (W0 : JSQ.toFixed0 0 = 0) by reflexivity.
  destruct (JSQ.gtb b 0) eqn:G; [apply gtb_true in G | apply gtb_false in G].
  - pose proof (percent_nonneg t b Ht G) as Hp.
    unfold JSQ.min. destruct (Qle_bool 100 (t / b * 100)) eqn:M.
    + rewrite W100. split; [lia | reflexivity].
    + assert (M' : (t / b * 100 < 100)%Q).
      { apply Qnot_le_lt. intros H. apply Qle_bool_iff in H. congruence. }
      split.
      * unfold JSQ.toFixed0.
        assert (L : JSQ.ltb (t / b * 100) 0 = false) by (apply ltb_false; exact Hp).
        rewrite L.
        assert (F0 : Qfloor (0 + (1 # 2)) <= Qfloor (t / b * 100 + (1 # 2)))
          by (apply Qfloor_resp_le; lra).
        assert (F1 : Qfloor (t / b * 100 + (1 # 2)) <= Qfloor (100 + (1 # 2)))
          by (apply Qfloor_resp_le; lra).
        change (Qfloor (0 + (1 # 2))) with 0 in F0.
        change (Qfloor (100 + (1 # 2))) with 100 in F1. lia.
      * intros _ Hover. pose proof (percent_over t b G Hover). lra.
  - unfold JSQ.min. change (Qle_bool 100 0) with false. cbv iota.
    rewrite W0. split; [lia|]. intros; exfalso; lra.
Qed.

Lemma progress_bar_width_witness :
  tz_range IST /\ date_key 20096 "2025-01-08" /\
  Forall (fun e => (0 < amount e)%Q) sample_expenses /\
  exists view,
    renderBudgetView IST sample_expenses sample_budgets "2025-01-08" = JS.Ok view /\
    0 <= progressWidth view <= 100 /\
    ((0 < currentBudget view)%Q -> (currentBudget view <= monthlyTotal view)%Q ->
     progressWidth view = 100).
Proof.
  assert (H1 : tz_range IST) by (unfold tz_range, IST, msPerDay; lia).
  assert (H2 : date_key 20096 "2025-01-08") by (vm_compute; reflexivity).
  assert (H3 : Forall (fun e => (0 < amount e)%Q) sample_expenses)
    by (repeat (constructor; [reflexivity|]); constructor).
  repeat (split; [assumption|]).
  exact (progress_bar_width IST sample_expenses sample_budgets "2025-01-08" 20096 H1 H2 H3).
Defined.



End Displays.
